(** * Curriculum exporter: [scripts/export-curriculum.py]

    A shallow embedding of [export_curriculum] and what it guarantees.

    - A table is the list of its rows in scan order; a nullable column is
      an [option].
    - The two SQL queries are functions over the tables, built from the
      operators of [Sql]: LEFT JOIN as a nested loop, WHERE as a filter,
      ORDER BY as a sort on the key, GROUP BY as one group per distinct key
      (in key order, the rows of a group in scan order), GROUP_CONCAT over
      the non-NULL values of a group.
    - The Python body is translated statement by statement: [None] is
      [None], [if v:] is [Py.truthy], an f-string prints [None] as the word
      None, the dictionary [homework_by_day] is a [gmap] keyed by the tuple
      (module, day number), and [chunk] is a record with the dictionary's
      keys.  The index of [enumerate(activities, 1)] is never read and is
      left out.
    - The run is a transformer of a small world: the database, the files
      by path and the text printed so far.  [json.dump] is [Json.dump]. *)

From Stdlib Require Import Ascii.
From stdpp Require Import base option list gmap strings pretty sorting.

Local Open Scope string_scope.
Local Open Scope Z_scope.

(** ** Python values *)

Module Py.

(** A nullable TEXT column as [sqlite3] hands it to Python: [None] or a
    [str]. *)
Abbreviation text := (option string).

(** [str(n)] for an [int]. *)
Definition str_int (n : Z) : string := pretty n.

(** [f"{v}"] for a nullable TEXT value: [None] prints as the word None. *)
Definition fmt_text (v : text) : string := default "None" v.

(** [f"{v}"] for a nullable INTEGER value. *)
Definition fmt_int (v : option Z) : string := from_option str_int "None" v.

(** Truth value of a nullable TEXT value, as tested by [if v:]. *)
Definition truthy (v : text) : bool :=
  match v with
  | Some s => negb (String.eqb s "")
  | None => false
  end.

(** [v or ""]. *)
Definition or_empty (v : text) : string :=
  if truthy v then default "" v else "".

(** The string ["\n"]. *)
Definition newline : string := String "010"%char "".

(** [sep.join(parts)]. *)
Definition join (sep : string) (parts : list string) : string :=
  String.concat sep parts.

End Py.

(** ** The source tables *)

(** Modelled from the spec: the table schema (the repository holds no DDL),
    here the table [days].  Columns and their nullability follow section 3 of the specification:
    a day's module and theme, an activity's day and learning block, its
    purpose, duration and scripts, and a homework title are optional;
    identifiers, day numbers, sequence orders, names and task descriptions
    are not. *)
Record day := Day {
  d_id : Z;
  d_module : Py.text;
  d_day_number : Z;
  d_theme : Py.text;
}.

(** Modelled from the spec: the table [learning_blocks]. *)
Record learning_block := LearningBlock {
  lb_id : Z;
  lb_focus : string;
}.

(** Modelled from the spec: the table [activities]; [a_day_id] and
    [a_block_id] are its foreign keys [day_id] and [block_id]. *)
Record activity := Activity {
  a_id : Z;
  a_day_id : option Z;
  a_block_id : option Z;
  a_name : string;
  a_sequence_order : Z;
  a_purpose : Py.text;
  a_duration : Py.text;
  a_facilitator_script : Py.text;
  a_transition_script : Py.text;
}.

(** Modelled from the spec: the table [homework_assignments]. *)
Record homework_assignment := HomeworkAssignment {
  ha_id : Z;
  ha_day_id : Z;
  ha_title : Py.text;
}.

(** Modelled from the spec: the table [homework_tasks]. *)
Record homework_task := HomeworkTask {
  ht_assignment_id : Z;
  ht_task : string;
}.

(** A table is the list of its rows in scan order. *)
Record database := Database {
  days : list day;
  learning_blocks : list learning_block;
  activities : list activity;
  homework_assignments : list homework_assignment;
  homework_tasks : list homework_task;
}.

Global Instance day_eq_dec : EqDecision day.
Proof. solve_decision. Defined.
Global Instance learning_block_eq_dec : EqDecision learning_block.
Proof. solve_decision. Defined.
Global Instance activity_eq_dec : EqDecision activity.
Proof. solve_decision. Defined.
Global Instance homework_assignment_eq_dec : EqDecision homework_assignment.
Proof. solve_decision. Defined.
Global Instance homework_task_eq_dec : EqDecision homework_task.
Proof. solve_decision. Defined.

(** ** SQL operators *)

Module Sql.

(** [l LEFT JOIN r ON on]: every left row with each matching right row, or
    with NULLs when none matches. *)
Definition left_join {A B} (on : A → B → bool) (l : list A) (r : list B)
    : list (A * option B) :=
  a ← l;
  match filter (λ b, on a b) r with
  | [] => [(a, None)]
  | matches => (λ b, (a, Some b)) <$> matches
  end.

(** [x = y] where [x] may be NULL (NULL equals nothing). *)
Definition eq_null (x : option Z) (y : Z) : bool :=
  match x with
  | Some v => bool_decide (v = y)
  | None => false
  end.

(** Ascending order of a nullable column: NULL sorts first. *)
Definition null_first {A} (R : relation A) : relation (option A) :=
  λ x y,
    match x, y with
    | None, _ => True
    | Some _, None => False
    | Some a, Some b => R a b
    end.

(** Order on a column list: by the leading columns, then by the last. *)
Definition lex {A B} (RA : relation A) (RB : relation B)
    : relation (A * B) :=
  λ p q, (p.1 ≠ q.1 ∧ RA p.1 q.1) ∨ (p.1 = q.1 ∧ RB p.2 q.2).

Global Instance null_first_dec {A} (R : relation A) `{!RelDecision R}
  : RelDecision (null_first R).
Proof. intros [a|] [b|]; simpl; apply _. Defined.

Global Instance lex_dec {A B} (RA : relation A) (RB : relation B)
    `{!EqDecision A, !RelDecision RA, !RelDecision RB}
  : RelDecision (lex RA RB).
Proof. intros p q. unfold lex. apply _. Defined.

(** Rows compared through a key. *)
Definition on_key {A K} (R : relation K) (key : A → K) : relation A :=
  λ x y, R (key x) (key y).

Global Instance on_key_dec {A K} (R : relation K) (key : A → K)
    `{!RelDecision R}
  : RelDecision (on_key R key).
Proof. intros x y. unfold on_key. apply _. Defined.

(** [ORDER BY key]: the rows sorted on [key] by [R]. *)
Definition order_by {A K} (R : relation K) `{!RelDecision R}
    (key : A → K) (rows : list A) : list A :=
  merge_sort (on_key R key) rows.

(** [GROUP BY key]: one group per distinct key, in key order, each with
    its rows in scan order. *)
Definition group_by {A K} (R : relation K) `{!RelDecision R, !EqDecision K}
    (key : A → K) (rows : list A) : list (K * list A) :=
  (λ k, (k, filter (λ r, key r = k) rows))
    <$> merge_sort R (remove_dups (key <$> rows)).

(** [GROUP_CONCAT(col, sep)]: the non-NULL values of the group joined by
    [sep]; NULL when there is none. *)
Definition group_concat (sep : string) (vals : list (option string))
    : option string :=
  match omap id vals with
  | [] => None
  | vs => Some (String.concat sep vs)
  end.

End Sql.

(** ** The activities query *)

(** A row of the first query, with the column names of its SELECT list.
    Columns of [days] and [learning_blocks] are nullable: they come through
    a LEFT JOIN. *)
Record activity_row := ActivityRow {
  activity_id : Z;
  module : Py.text;
  day_number : option Z;
  day_theme : Py.text;
  activity_name : string;
  sequence_order : Z;
  purpose : Py.text;
  duration : Py.text;
  facilitator_script : Py.text;
  transition_script : Py.text;
  learning_block_focus : Py.text;
}.

(** [FROM activities a LEFT JOIN days d ON a.day_id = d.id
     LEFT JOIN learning_blocks lb ON a.block_id = lb.id]. *)
Definition activities_from (db : database)
    : list (activity * option day * option learning_block) :=
  Sql.left_join (λ j lb, Sql.eq_null (a_block_id j.1) (lb_id lb))
    (Sql.left_join (λ a d, Sql.eq_null (a_day_id a) (d_id d))
       (activities db) (days db))
    (learning_blocks db).

(** [WHERE d.module IS NOT NULL]. *)
Definition activities_where (j : activity * option day * option learning_block)
    : bool :=
  bool_decide (is_Some (j.1.2 ≫= d_module)).

(** The key of [ORDER BY d.module, d.day_number, a.sequence_order]. *)
Abbreviation order_key := (option string * option Z * Z)%type.

Definition order_le : relation order_key :=
  Sql.lex (Sql.lex (Sql.null_first String.le) (Sql.null_first Z.le)) Z.le.

Definition activities_order_key
    (j : activity * option day * option learning_block) : order_key :=
  (j.1.2 ≫= d_module, d_day_number <$> j.1.2, a_sequence_order j.1.1).

(** The SELECT list. *)
Definition activities_select
    (j : activity * option day * option learning_block) : activity_row :=
  let a := j.1.1 in
  let d := j.1.2 in
  let lb := j.2 in
  {| activity_id := a_id a;
     module := d ≫= d_module;
     day_number := d_day_number <$> d;
     day_theme := d ≫= d_theme;
     activity_name := a_name a;
     sequence_order := a_sequence_order a;
     purpose := a_purpose a;
     duration := a_duration a;
     facilitator_script := a_facilitator_script a;
     transition_script := a_transition_script a;
     learning_block_focus := lb_focus <$> lb |}.

(** [cursor.execute(query); activities = cursor.fetchall()]. *)
Definition activities_query (db : database) : list activity_row :=
  activities_select
    <$> Sql.order_by order_le activities_order_key
          (filter (λ j, activities_where j) (activities_from db)).

(** ** The homework query *)

(** A row of the second query; [hw_title] and [hw_tasks] are its columns
    [homework_title] and [homework_tasks]. *)
Record homework_row := HomeworkRow {
  hw_day_id : Z;
  hw_module : Py.text;
  hw_day_number : Z;
  hw_title : Py.text;
  hw_tasks : Py.text;
}.

(** [FROM days d LEFT JOIN homework_assignments ha ON ha.day_id = d.id
     LEFT JOIN homework_tasks ht ON ht.assignment_id = ha.id].  With no
    assignment [ha.id] is NULL and no task matches. *)
Definition homework_from (db : database)
    : list (day * option homework_assignment * option homework_task) :=
  Sql.left_join
    (λ j ht, Sql.eq_null (ha_id <$> j.2) (ht_assignment_id ht))
    (Sql.left_join (λ d ha, bool_decide (ha_day_id ha = d_id d))
       (days db) (homework_assignments db))
    (homework_tasks db).

(** [WHERE d.module IS NOT NULL]. *)
Definition homework_where
    (j : day * option homework_assignment * option homework_task) : bool :=
  bool_decide (is_Some (d_module j.1.1)).

(** The key of [GROUP BY d.id, d.module, d.day_number, ha.title]. *)
Abbreviation group_key := (Z * option string * Z * option string)%type.

Definition group_le : relation group_key :=
  Sql.lex (Sql.lex (Sql.lex Z.le (Sql.null_first String.le)) Z.le)
    (Sql.null_first String.le).

Definition homework_group_key
    (j : day * option homework_assignment * option homework_task)
    : group_key :=
  (d_id j.1.1, d_module j.1.1, d_day_number j.1.1, j.1.2 ≫= ha_title).

(** The column [ht.task] of a joined row. *)
Definition task_column
    (j : day * option homework_assignment * option homework_task)
    : option string :=
  ht_task <$> j.2.

(** The SELECT list, over one group. *)
Definition homework_select
    (g : group_key
         * list (day * option homework_assignment * option homework_task))
    : homework_row :=
  {| hw_day_id := g.1.1.1.1;
     hw_module := g.1.1.1.2;
     hw_day_number := g.1.1.2;
     hw_title := g.1.2;
     hw_tasks := Sql.group_concat " | " (task_column <$> g.2) |}.

(** [cursor.execute(homework_query); homework_rows = cursor.fetchall()]. *)
Definition homework_query (db : database) : list homework_row :=
  homework_select
    <$> Sql.group_by group_le homework_group_key
          (filter (λ j, homework_where j) (homework_from db)).

(** ** The homework lookup *)

(** A dictionary of the list [homework_by_day[key]]. *)
Record hw_item := HwItem {
  title : Py.text;
  tasks : string;
}.

Global Instance hw_item_eq_dec : EqDecision hw_item.
Proof. solve_decision. Defined.

(** The tuple [(module, day_number)]. *)
Abbreviation day_key := (option string * option Z)%type.

(** One turn of the loop over [homework_rows]. *)
Definition homework_by_day_step
    (homework_by_day : gmap day_key (list hw_item)) (row : homework_row)
    : gmap day_key (list hw_item) :=
  let key := (hw_module row, Some (hw_day_number row)) in
  let homework_by_day :=
    match homework_by_day !! key with
    | None => <[key := []]> homework_by_day
    | Some _ => homework_by_day
    end in
  if Py.truthy (hw_title row) then
    alter
      (λ items,
         (items ++ [{| title := hw_title row;
                       tasks := Py.or_empty (hw_tasks row) |}])%list)
      key homework_by_day
  else homework_by_day.

Definition build_homework_by_day (homework_rows : list homework_row)
    : gmap day_key (list hw_item) :=
  foldl homework_by_day_step ∅ homework_rows.

(** ** Chunk assembly *)

(** [if v: content_parts.append(f"<label>{v}")]. *)
Definition optional_part (label : string) (v : Py.text) : list string :=
  if Py.truthy v then [label +:+ Py.fmt_text v] else [].

(** The three lines every chunk starts with. *)
Definition header_parts (activity : activity_row) : list string :=
  [ "Module: " +:+ Py.fmt_text (module activity);
    "Day " +:+ Py.fmt_int (day_number activity) +:+ ": "
      +:+ Py.fmt_text (day_theme activity);
    "Session " +:+ Py.str_int (sequence_order activity) +:+ ": "
      +:+ activity_name activity ].

(** [f"{hw['title']}: {hw['tasks']}"]. *)
Definition hw_entry (hw : hw_item) : string :=
  Py.fmt_text (title hw) +:+ ": " +:+ tasks hw.

(** The homework of a late-session activity. *)
Definition homework_part
    (homework_by_day : gmap day_key (list hw_item)) (activity : activity_row)
    : list string :=
  let day_key := (module activity, day_number activity) in
  match homework_by_day !! day_key with
  | Some hw_items =>
      if bool_decide (3 ≤ sequence_order activity) then
        match hw_items with
        | [] => []
        | _ =>
            let hw_text :=
              Py.join "; "
                (hw_entry <$> filter (λ hw, Py.truthy (title hw)) hw_items)
            in
            ["Homework: " +:+ hw_text]
        end
      else []
  | None => []
  end.

Definition content_parts
    (homework_by_day : gmap day_key (list hw_item)) (activity : activity_row)
    : list string :=
  (header_parts activity
   ++ optional_part "Learning Block Focus: " (learning_block_focus activity)
   ++ optional_part "Purpose: " (purpose activity)
   ++ optional_part "Duration: " (duration activity)
   ++ optional_part "Facilitator Script: " (facilitator_script activity)
   ++ optional_part "Transition: " (transition_script activity)
   ++ homework_part homework_by_day activity)%list.

(** The dictionary [chunk], its keys in insertion order. *)
Record chunk := Chunk {
  chunk_id : string;
  chunk_content_type : string;
  chunk_module : Py.text;
  chunk_day : option Z;
  chunk_day_theme : Py.text;
  chunk_session_number : Z;
  chunk_activity_name : string;
  chunk_purpose : Py.text;
  chunk_duration : Py.text;
  chunk_searchable_content : string;
  chunk_facilitator_script : Py.text;
  chunk_transition_script : Py.text;
}.

Definition make_chunk
    (homework_by_day : gmap day_key (list hw_item)) (activity : activity_row)
    : chunk :=
  {| chunk_id := "curr-" +:+ Py.str_int (activity_id activity);
     chunk_content_type := "curriculum_activity";
     chunk_module := module activity;
     chunk_day := day_number activity;
     chunk_day_theme := day_theme activity;
     chunk_session_number := sequence_order activity;
     chunk_activity_name := activity_name activity;
     chunk_purpose := purpose activity;
     chunk_duration := duration activity;
     chunk_searchable_content :=
       Py.join Py.newline (content_parts homework_by_day activity);
     chunk_facilitator_script := facilitator_script activity;
     chunk_transition_script := transition_script activity |}.

(** The chunks of a database: both queries, the lookup, then one chunk per
    fetched activity, in order. *)
Definition homework_lookup (db : database) : gmap day_key (list hw_item) :=
  build_homework_by_day (homework_query db).

Definition export_chunks (db : database) : list chunk :=
  make_chunk (homework_lookup db) <$> activities_query db.

(** ** The sink *)

(** [json.dump(chunks, f, indent=2, ensure_ascii=False)] on a list of
    chunks: strings holding UTF-8 text go out byte for byte, except the
    characters JSON escapes. *)
Module Json.

Definition hex_digit (n : N) : ascii :=
  match n with
  | 0 => "0" | 1 => "1" | 2 => "2" | 3 => "3" | 4 => "4" | 5 => "5"
  | 6 => "6" | 7 => "7" | 8 => "8" | 9 => "9" | 10 => "a" | 11 => "b"
  | 12 => "c" | 13 => "d" | 14 => "e" | _ => "f"
  end%N%char.

Definition backslash : ascii := ascii_of_N 92.

(** A backslash and a letter. *)
Definition esc (letter : ascii) : string := String backslash (String letter "").

Definition escape_char (c : ascii) : string :=
  let n := N_of_ascii c in
  if (n =? 34)%N then esc c
  else if (n =? 92)%N then esc c
  else if (n =? 8)%N then esc "b"
  else if (n =? 12)%N then esc "f"
  else if (n =? 10)%N then esc "n"
  else if (n =? 13)%N then esc "r"
  else if (n =? 9)%N then esc "t"
  else if (n <? 32)%N then
    esc "u" +:+ "00"
    +:+ String (hex_digit (n / 16)) (String (hex_digit (n mod 16)) "")
  else String c "".

Fixpoint escape (s : string) : string :=
  match s with
  | EmptyString => ""
  | String c s => escape_char c +:+ escape s
  end.

Definition quote : string := String (ascii_of_N 34) "".

Definition str (s : string) : string := quote +:+ escape s +:+ quote.

Definition text (v : Py.text) : string := from_option str "null" v.

Definition int (v : option Z) : string := from_option Py.str_int "null" v.

(** One ["key": value] member. *)
Definition member (key value : string) : string := str key +:+ ": " +:+ value.

Definition object (c : chunk) : string :=
  "{" +:+ Py.newline +:+ "    "
  +:+ Py.join ("," +:+ Py.newline +:+ "    ")
        [ member "id" (str (chunk_id c));
          member "content_type" (str (chunk_content_type c));
          member "module" (text (chunk_module c));
          member "day" (int (chunk_day c));
          member "day_theme" (text (chunk_day_theme c));
          member "session_number" (Py.str_int (chunk_session_number c));
          member "activity_name" (str (chunk_activity_name c));
          member "purpose" (text (chunk_purpose c));
          member "duration" (text (chunk_duration c));
          member "searchable_content" (str (chunk_searchable_content c));
          member "facilitator_script" (text (chunk_facilitator_script c));
          member "transition_script" (text (chunk_transition_script c)) ]
  +:+ Py.newline +:+ "  }".

Definition dump (chunks : list chunk) : string :=
  match chunks with
  | [] => "[]"
  | _ =>
      "[" +:+ Py.newline +:+ "  "
      +:+ Py.join ("," +:+ Py.newline +:+ "  ") (object <$> chunks)
      +:+ Py.newline +:+ "]"
  end.

End Json.

(** ** The run *)

(** What a run reads and writes: the curriculum database, the files by
    path, and what was printed so far. *)
Record world := World {
  source : database;
  files : gmap string string;
  stdout : string;
}.

(** [print(text)]. *)
Definition print (text : string) (out : string) : string :=
  out +:+ text +:+ Py.newline.

(** The module names of the printed breakdown. *)
Definition breakdown_modules : list string :=
  ["Architecture"; "Solar"; "Insulation"].

(** [len([c for c in chunks if c["module"] == module])]. *)
Definition module_count (chunks : list chunk) (name : string) : Z :=
  Z.of_nat
    (length (filter (λ c, chunk_module c = Some name) chunks)).

Definition breakdown_line (chunks : list chunk) (name : string) : string :=
  "  " +:+ name +:+ ": " +:+ Py.str_int (module_count chunks name)
  +:+ " activities".

Section run.

(** The path the chunks are written to, as it prints. *)
Variable OUTPUT_PATH : string.

Definition summary (chunks : list chunk) (out : string) : string :=
  foldl (λ out name, print (breakdown_line chunks name) out)
    (print (Py.newline +:+ "Breakdown:")
       (print
          ("âœ… Exported "
           +:+ Py.str_int (Z.of_nat (length chunks))
           +:+ " curriculum activities to " +:+ OUTPUT_PATH)
          out))
    breakdown_modules.

Definition export_curriculum (w : world) : world :=
  let chunks := export_chunks (source w) in
  {| source := source w;
     files := <[OUTPUT_PATH := Json.dump chunks]> (files w);
     stdout := summary chunks (stdout w) |}.

End run.

(** The columns a chunk keeps of the query's ORDER BY. *)
Definition chunk_order_key (c : chunk) : order_key :=
  (chunk_module c, chunk_day c, chunk_session_number c).

(** * Specification vocabulary *)

(** A line made by the homework step. *)
Definition is_homework_line (p : string) : Prop :=
  ∃ hw_text, p = "Homework: " +:+ hw_text.

(** The key a homework row is filed under, and what it adds there. *)
Definition row_key (row : homework_row) : day_key :=
  (hw_module row, Some (hw_day_number row)).

Definition row_items (row : homework_row) : list hw_item :=
  if Py.truthy (hw_title row) then
    [{| title := hw_title row; tasks := Py.or_empty (hw_tasks row) |}]
  else [].

(** The items the rows add under a key, in row order. *)
Definition items_for (k : day_key) (rows : list homework_row) : list hw_item :=
  row ← filter (λ row, row_key row = k) rows; row_items row.

(** The lines before the homework step. *)
Definition front_parts (activity : activity_row) : list string :=
  (header_parts activity
   ++ optional_part "Learning Block Focus: " (learning_block_focus activity)
   ++ optional_part "Purpose: " (purpose activity)
   ++ optional_part "Duration: " (duration activity)
   ++ optional_part "Facilitator Script: " (facilitator_script activity)
   ++ optional_part "Transition: " (transition_script activity))%list.

(** ** Lines of a text *)

(** [s.split("\n")]: the lines of a text. *)
Fixpoint lines (s : string) : list string :=
  match s with
  | "" => [""]
  | String a s =>
      if Ascii.eqb a "010" then "" :: lines s
      else
        match lines s with
        | [] => [String a ""]
        | l :: ls => String a l :: ls
        end
  end.

(** A text of one line. *)
Fixpoint one_line (s : string) : bool :=
  match s with
  | "" => true
  | String a s => negb (Ascii.eqb a "010") && one_line s
  end.

(** ** Sample databases *)

(** The worked example of the specification: activity 42 of day 3 of the
    Solar module, with one homework assignment of two tasks. *)
Definition solar_db : database :=
  {| days := [Day 7 (Some "Solar") 3 (Some "Photovoltaics")];
     learning_blocks := [];
     activities :=
       [Activity 42 (Some 7) None "Panel Wiring Lab" 4
          (Some "Hands-on wiring practice") (Some "45 min")
          (Some "Walk through safety steps") None];
     homework_assignments := [HomeworkAssignment 1 7 (Some "Reading")];
     homework_tasks :=
       [HomeworkTask 1 "Read ch. 4"; HomeworkTask 1 "Quiz prep"] |}.

Definition solar_row : activity_row :=
  {| activity_id := 42;
     module := Some "Solar";
     day_number := Some 3;
     day_theme := Some "Photovoltaics";
     activity_name := "Panel Wiring Lab";
     sequence_order := 4;
     purpose := Some "Hands-on wiring practice";
     duration := Some "45 min";
     facilitator_script := Some "Walk through safety steps";
     transition_script := None;
     learning_block_focus := None |}.

(** The same, the assignment's title being the empty string. *)
Definition empty_title_db : database :=
  {| days := days solar_db;
     learning_blocks := [];
     activities := activities solar_db;
     homework_assignments := [HomeworkAssignment 1 7 (Some "")];
     homework_tasks := homework_tasks solar_db |}.

(** The same, the day having no theme. *)
Definition no_theme_db : database :=
  {| days := [Day 7 (Some "Solar") 3 None];
     learning_blocks := [];
     activities := activities solar_db;
     homework_assignments := homework_assignments solar_db;
     homework_tasks := homework_tasks solar_db |}.

Definition no_theme_row : activity_row :=
  {| activity_id := 42;
     module := Some "Solar";
     day_number := Some 3;
     day_theme := None;
     activity_name := "Panel Wiring Lab";
     sequence_order := 4;
     purpose := Some "Hands-on wiring practice";
     duration := Some "45 min";
     facilitator_script := Some "Walk through safety steps";
     transition_script := None;
     learning_block_focus := None |}.

(** ** Qualifying activities *)

(** The database with another activities table. *)
Definition with_activities (db : database) (acts : list activity) : database :=
  {| days := days db;
     learning_blocks := learning_blocks db;
     activities := acts;
     homework_assignments := homework_assignments db;
     homework_tasks := homework_tasks db |}.

(** An activity qualifies when its day exists and has a module. *)
Definition qualifies (db : database) (a : activity) : Prop :=
  Exists (λ d, a_day_id a = Some (d_id d) ∧ is_Some (d_module d)) (days db).

Global Instance qualifies_dec db a : Decision (qualifies db a).
Proof. unfold qualifies. apply _. Defined.

(** Identifiers are primary keys. *)
Definition primary_keys (db : database) : Prop :=
  NoDup (d_id <$> days db) ∧ NoDup (lb_id <$> learning_blocks db).

(** Three activities of which one qualifies: the first has no day, the
    second a day without module, the third a day of the Solar module and a
    learning block. *)
Definition mixed_db : database :=
  {| days := [Day 7 (Some "Solar") 3 (Some "Photovoltaics"); Day 8 None 1 None];
     learning_blocks := [LearningBlock 5 "Wiring"];
     activities :=
       [ Activity 40 None None "Welcome" 1 None None None None;
         Activity 41 (Some 8) None "Orphan" 2 None None None None;
         Activity 42 (Some 7) (Some 5) "Panel Wiring Lab" 4 None None None None ];
     homework_assignments := [];
     homework_tasks := [] |}.

(** A run on a database without activities starts from this world. *)
Definition empty_world : world :=
  {| source := with_activities solar_db [];
     files := ∅;
     stdout := "" |}.

(** ** Homework of a day *)

(** The database with other homework tables. *)
Definition with_homework (db : database)
    (assignments : list homework_assignment) (tasks : list homework_task)
    : database :=
  {| days := days db;
     learning_blocks := learning_blocks db;
     activities := activities db;
     homework_assignments := assignments;
     homework_tasks := tasks |}.

(** The row the second query makes of a day without assignments. *)
Definition null_homework_row (d : day) : homework_row :=
  {| hw_day_id := d_id d;
     hw_module := d_module d;
     hw_day_number := d_day_number d;
     hw_title := None;
     hw_tasks := None |}.



(** The worked example without its homework. *)
Definition no_homework_db : database := with_homework solar_db [] [].


(** The worked example with a second assignment of another title. *)
Definition two_titles_db : database :=
  with_homework solar_db
    [HomeworkAssignment 1 7 (Some "Reading");
     HomeworkAssignment 2 7 (Some "Writing")]
    [HomeworkTask 1 "Read ch. 4"; HomeworkTask 1 "Quiz prep";
     HomeworkTask 2 "Essay"].

(** ** Vocabulary of the further properties *)

(** The GROUP BY columns of a fetched homework row. *)
Definition row_group_key (row : homework_row) : group_key :=
  (hw_day_id row, hw_module row, hw_day_number row, hw_title row).

(** A day number belongs to one day of a module. *)
Definition day_numbers_unique (db : database) : Prop :=
  ∀ d1 d2,
    d1 ∈ days db → d2 ∈ days db →
    d_module d1 = d_module d2 → d_day_number d1 = d_day_number d2 →
    d_id d1 = d_id d2.

(** Two days of the Solar module, two sessions on the first, homework on
    both. *)
Definition two_days_db : database :=
  {| days :=
       [Day 7 (Some "Solar") 3 (Some "Photovoltaics");
        Day 8 (Some "Solar") 4 None];
     learning_blocks := [LearningBlock 5 "Wiring"];
     activities :=
       [ Activity 43 (Some 8) None "Inverters" 3 None None None None;
         Activity 42 (Some 7) (Some 5) "Panel Wiring Lab" 4 None None None None;
         Activity 41 (Some 7) None "Safety briefing" 1 None None None None ];
     homework_assignments :=
       [HomeworkAssignment 1 7 (Some "Reading");
        HomeworkAssignment 2 7 (Some "Writing");
        HomeworkAssignment 3 8 (Some "Reading")];
     homework_tasks :=
       [HomeworkTask 1 "Read ch. 4"; HomeworkTask 3 "Read ch. 5";
        HomeworkTask 2 "Essay"] |}.

(** The number of newline characters of a text. *)
Fixpoint newlines (s : string) : nat :=
  match s with
  | "" => 0
  | String a s => (if Ascii.eqb a "010" then 1 else 0) + newlines s
  end.

(** The assignments of a day that have a title, in scan order. *)
Definition titled_assignments (db : database) (d : day)
    : list homework_assignment :=
  filter (λ h, ha_day_id h = d_id d ∧ Py.truthy (ha_title h))
    (homework_assignments db).

(** * Properties *)

(** ** The column orders *)

Section orders.
Context {A B : Type} (RA : relation A) (RB : relation B).

Global Instance null_first_refl `{!Reflexive RA} : Reflexive (Sql.null_first RA).
Proof. intros [x|]; simpl; done. Qed.

Global Instance null_first_trans `{!Transitive RA}
  : Transitive (Sql.null_first RA).
Proof.
  intros [x|] [y|] [z|]; simpl; try done. apply transitivity.
Qed.

Global Instance null_first_antisymm `{!AntiSymm (=) RA}
  : AntiSymm (=) (Sql.null_first RA).
Proof.
  intros [x|] [y|]; simpl; try done.
  intros Hxy Hyx. f_equal. by apply (anti_symm RA).
Qed.

Global Instance null_first_total `{!Total RA} : Total (Sql.null_first RA).
Proof.
  intros [x|] [y|]; simpl; auto.
Qed.

Global Instance lex_total `{!EqDecision A, !Total RA, !Total RB}
  : Total (Sql.lex RA RB).
Proof.
  intros [a1 b1] [a2 b2]. unfold Sql.lex. simpl.
  destruct (decide (a1 = a2)) as [->|Hne].
  - destruct (total RB b1 b2); auto.
  - destruct (total RA a1 a2); auto.
Qed.

Global Instance lex_antisymm `{!AntiSymm (=) RA, !AntiSymm (=) RB}
  : AntiSymm (=) (Sql.lex RA RB).
Proof.
  intros [a1 b1] [a2 b2]. unfold Sql.lex. simpl.
  intros [[Hne H12]|[-> H12]] [[Hne' H21]|[Heq H21]]; try congruence.
  - destruct Hne. by apply (anti_symm RA).
  - f_equal. by apply (anti_symm RB).
Qed.

Global Instance lex_trans
    `{!Transitive RA, !AntiSymm (=) RA, !Transitive RB}
  : Transitive (Sql.lex RA RB).
Proof.
  intros [a1 b1] [a2 b2] [a3 b3]. unfold Sql.lex. simpl.
  intros [[Hne H12]|[-> H12]] [[Hne' H23]|[-> H23]].
  - left. split; [|by etrans].
    intros ->. destruct Hne. by apply (anti_symm RA).
  - by left.
  - by left.
  - right. split; [done|by etrans].
Qed.

End orders.

Global Instance order_le_total : Total order_le.
Proof. unfold order_le. apply _. Qed.

Global Instance order_le_trans : Transitive order_le.
Proof. unfold order_le. apply _. Qed.

Global Instance group_le_total : Total group_le.
Proof. unfold group_le. apply _. Qed.

Global Instance on_key_total {A K} (R : relation K) (key : A → K) `{!Total R}
  : Total (Sql.on_key R key).
Proof. intros x y. apply (total R). Qed.

Global Instance on_key_trans {A K} (R : relation K) (key : A → K)
    `{!Transitive R}
  : Transitive (Sql.on_key R key).
Proof. intros x y z. apply (transitivity (R:=R)). Qed.

(** On rows whose module and day number are not NULL, [order_le] is the
    ascending order on module, then day number, then sequence order. *)
Lemma order_le_spec (m1 m2 : string) (d1 d2 s1 s2 : Z) :
  order_le (Some m1, Some d1, s1) (Some m2, Some d2, s2)
  ↔ (m1 ≠ m2 ∧ String.le m1 m2)
    ∨ (m1 = m2 ∧ (d1 < d2 ∨ (d1 = d2 ∧ s1 ≤ s2))).
Proof.
  unfold order_le, Sql.lex. simpl. split.
  - intros [[Hne [[Hm ?]|[Hm ?]]]|[Heq ?]]; simplify_eq.
    + left. split; [congruence|done].
    + right. split; [done|left]. assert (d1 ≠ d2) by congruence. lia.
    + right. split; [done|right]. done.
  - intros [[Hm ?]|[-> [?|[-> ?]]]].
    + left. split; [congruence|]. left. split; [congruence|done].
    + left. split; [intros ?; simplify_eq; lia|].
      right. split; [done|]. simpl. lia.
    + right. done.
Qed.
(** ** Joins *)

Section left_join.
Context {A B : Type} (on : A → B → bool).

Lemma left_join_nil r : Sql.left_join on [] r = [].
Proof. done. Qed.

Lemma left_join_cons a l r :
  Sql.left_join on (a :: l) r
  = (Sql.left_join on [a] r ++ Sql.left_join on l r)%list.
Proof. unfold Sql.left_join. simpl. by rewrite (right_id_L [] app). Qed.


Lemma elem_of_left_join l r a ob :
  (a, ob) ∈ Sql.left_join on l r
  ↔ a ∈ l
    ∧ match ob with
      | Some b => b ∈ r ∧ on a b
      | None => ∀ b, b ∈ r → ¬ on a b
      end.
Proof.
  unfold Sql.left_join. rewrite list_elem_of_bind. split.
  - intros (a' & Hin & Ha').
    destruct (filter (λ b, on a' b) r) as [|b0 bs] eqn:Hf.
    + apply list_elem_of_singleton in Hin.
      injection Hin as ? ?. subst a' ob. split; [done|].
      intros b Hb Hon.
      assert (b ∈ filter (λ b, on a b) r) as Hbf
        by (apply list_elem_of_filter; done).
      rewrite Hf in Hbf. by apply not_elem_of_nil in Hbf.
    + apply list_elem_of_fmap in Hin as (b & Heq & Hb).
      injection Heq as ? ?. subst a' ob.
      split; [done|]. rewrite <- Hf in Hb.
      apply list_elem_of_filter in Hb as [??]. done.
  - intros [Ha Hob]. exists a. split; [|done].
    destruct ob as [b|].
    + destruct Hob as [Hb Hon].
      assert (b ∈ filter (λ b, on a b) r) as Hbf
        by (apply list_elem_of_filter; done).
      destruct (filter (λ b, on a b) r) as [|b0 bs] eqn:Hf.
      * by apply not_elem_of_nil in Hbf.
      * apply list_elem_of_fmap. eauto.
    + destruct (filter (λ b, on a b) r) as [|b0 bs] eqn:Hf.
      * apply list_elem_of_singleton. done.
      * assert (b0 ∈ filter (λ b, on a b) r) as Hbf
          by (rewrite Hf; apply list_elem_of_here).
        apply list_elem_of_filter in Hbf as [Hon Hb0].
        by destruct (Hob b0 Hb0).
Qed.

(** Every left row comes through. *)
Lemma left_join_covers l r a :
  a ∈ l → ∃ ob, (a, ob) ∈ Sql.left_join on l r.
Proof.
  intros Ha.
  destruct (filter (λ b, on a b) r) as [|b0 bs] eqn:Hf.
  - exists None. apply elem_of_left_join. split; [done|].
    intros b Hb Hon.
    assert (b ∈ filter (λ b, on a b) r) as Hbf
      by (apply list_elem_of_filter; done).
    rewrite Hf in Hbf. by apply not_elem_of_nil in Hbf.
  - exists (Some b0). apply elem_of_left_join. split; [done|].
    assert (b0 ∈ filter (λ b, on a b) r) as Hbf
      by (rewrite Hf; apply list_elem_of_here).
    apply list_elem_of_filter in Hbf as [??]. done.
Qed.

End left_join.

Lemma eq_null_true x y : Sql.eq_null x y ↔ x = Some y.
Proof.
  destruct x as [v|]; simpl; [|done].
  rewrite bool_decide_spec. split; [by intros ->|by intros [= ->]].
Qed.
(** ** The activities query *)

Lemma elem_of_order_by {A K} (R : relation K) `{!RelDecision R}
    (key : A → K) (rows : list A) x :
  x ∈ Sql.order_by R key rows ↔ x ∈ rows.
Proof. unfold Sql.order_by. by rewrite merge_sort_Permutation. Qed.

Lemma order_by_sorted {A K} (R : relation K)
    `{!RelDecision R, !Total R, !Transitive R} (key : A → K) rows :
  StronglySorted (Sql.on_key R key) (Sql.order_by R key rows).
Proof. unfold Sql.order_by. apply StronglySorted_merge_sort; apply _. Qed.

(** The rows the first query fetches: one for each activity, day and
    learning block that join, the day having a module. *)
Lemma elem_of_activities_query db r :
  r ∈ activities_query db
  ↔ ∃ a d lb,
      a ∈ activities db
      ∧ d ∈ days db ∧ a_day_id a = Some (d_id d) ∧ is_Some (d_module d)
      ∧ match lb with
        | Some b => b ∈ learning_blocks db ∧ a_block_id a = Some (lb_id b)
        | None => ∀ b, b ∈ learning_blocks db → a_block_id a ≠ Some (lb_id b)
        end
      ∧ r = activities_select (a, Some d, lb).
Proof.
  unfold activities_query, activities_from.
  rewrite list_elem_of_fmap. split.
  - intros ([[a od] lb] & -> & Hj).
    apply elem_of_order_by, list_elem_of_filter in Hj as [Hw Hj].
    apply elem_of_left_join in Hj as [Hj Hlb].
    unfold activities_where in Hw. apply bool_decide_spec in Hw. simpl in *.
    destruct od as [d|]; [|by destruct Hw].
    apply elem_of_left_join in Hj as [Ha [Hd Hon]].
    apply eq_null_true in Hon.
    exists a, d, lb. repeat split; try done.
    destruct lb as [b|].
    + destruct Hlb as [? Hb]. by apply eq_null_true in Hb.
    + intros b Hb Heq. by apply (Hlb b Hb), eq_null_true.
  - intros (a & d & lb & Ha & Hd & Hday & Hm & Hlb & ->).
    exists (a, Some d, lb). split; [done|].
    apply elem_of_order_by, list_elem_of_filter. split.
    { unfold activities_where. by apply bool_decide_spec. }
    apply elem_of_left_join. split.
    + apply elem_of_left_join. split; [done|].
      split; [done|]. by apply eq_null_true.
    + destruct lb as [b|]; simpl.
      * destruct Hlb. split; [done|]. by apply eq_null_true.
      * intros b Hb Hon. by apply (Hlb b Hb), eq_null_true.
Qed.

(** Every fetched activity carries the module and number of a day of the
    database. *)
Lemma activities_query_day db r :
  r ∈ activities_query db →
  ∃ d m,
    d ∈ days db ∧ d_module d = Some m
    ∧ module r = Some m ∧ day_number r = Some (d_day_number d)
    ∧ day_theme r = d_theme d.
Proof.
  intros (a & d & lb & _ & Hd & _ & [m Hm] & _ & ->)%elem_of_activities_query.
  exists d, m. simpl. by rewrite Hm.
Qed.

Lemma chunk_order_key_make_chunk h j :
  chunk_order_key (make_chunk h (activities_select j))
  = activities_order_key j.
Proof. done. Qed.

(** C4: the chunks come out in ascending order of module, then day number,
    then sequence order ([order_le], which [order_le_spec] spells out for
    the modules and day numbers of chunks, none of which is NULL), each
    chunk at the place of its row in the query's result. *)
Theorem export_chunks_ordered db :
  StronglySorted (Sql.on_key order_le chunk_order_key) (export_chunks db)
  ∧ Forall (λ c, is_Some (chunk_module c) ∧ is_Some (chunk_day c))
      (export_chunks db)
  ∧ chunk_order_key <$> export_chunks db
    = (λ r, (module r, day_number r, sequence_order r))
        <$> activities_query db.
Proof.
  split; [|split].
  - unfold export_chunks, activities_query.
    rewrite <- list_fmap_compose.
    eapply StronglySorted_fmap; [|apply order_by_sorted; apply _].
    intros j1 j2 Hle. unfold Sql.on_key in *. simpl.
    by rewrite !chunk_order_key_make_chunk.
  - apply Forall_forall. unfold export_chunks.
    intros c (r & -> & Hr)%list_elem_of_fmap.
    apply activities_query_day in Hr as (d & m & _ & _ & Hm & Hn & _).
    cbn. rewrite Hm, Hn. by split; eexists.
  - unfold export_chunks. rewrite <- list_fmap_compose. done.
Qed.
(** ** Strings and joins *)

Lemma string_app_nil_l s : "" +:+ s = s.
Proof. done. Qed.

Lemma string_app_cons a s t : String a s +:+ t = String a (s +:+ t).
Proof. done. Qed.

Lemma string_app_nil_r s : s +:+ "" = s.
Proof.
  induction s as [|a s IH]; [done|]. by rewrite string_app_cons, IH.
Qed.

Lemma string_app_assoc s t u : (s +:+ t) +:+ u = s +:+ t +:+ u.
Proof.
  induction s as [|a s IH]; [done|]. by rewrite !string_app_cons, IH.
Qed.

Lemma join_nil sep : Py.join sep [] = "".
Proof. done. Qed.

Lemma join_singleton sep p : Py.join sep [p] = p.
Proof. done. Qed.

Lemma join_cons sep p q l :
  Py.join sep (p :: q :: l) = p +:+ sep +:+ Py.join sep (q :: l).
Proof. done. Qed.

(** Joining after a first part: nothing, or the separator and the rest. *)
Lemma join_cons_tail sep p l :
  ∃ rest,
    Py.join sep (p :: l) = p +:+ rest
    ∧ (l = [] ∧ rest = "" ∨ l ≠ [] ∧ rest = sep +:+ Py.join sep l).
Proof.
  destruct l as [|q l].
  - exists "". rewrite join_singleton, string_app_nil_r. auto.
  - exists (sep +:+ Py.join sep (q :: l)). rewrite join_cons.
    split; [done|]. right. done.
Qed.

Lemma join_snoc sep l p :
  l ≠ [] → Py.join sep (l ++ [p]) = Py.join sep l +:+ sep +:+ p.
Proof.
  induction l as [|q l IH]; [done|]. intros _.
  destruct l as [|q' l]; [done|].
  change ((q :: q' :: l) ++ [p])%list with (q :: q' :: (l ++ [p]))%list.
  rewrite !join_cons, string_app_assoc. f_equal.
  rewrite string_app_assoc. f_equal. by apply IH.
Qed.

(** ** The lines of a chunk *)

Lemma optional_part_spec label v p :
  p ∈ optional_part label v → ∃ s, v = Some s ∧ s ≠ "" ∧ p = label +:+ s.
Proof.
  unfold optional_part, Py.truthy. destruct v as [s|]; [|by intros ?%not_elem_of_nil].
  destruct (String.eqb_spec s ""); simpl; [by intros ?%not_elem_of_nil|].
  intros ->%list_elem_of_singleton. eauto.
Qed.

Lemma homework_part_spec h r p :
  p ∈ homework_part h r → homework_part h r = [p] ∧ is_homework_line p.
Proof.
  unfold homework_part.
  destruct (h !! _) as [[|hw items]|]; try by intros ?%not_elem_of_nil.
  - case_bool_decide; by intros ?%not_elem_of_nil.
  - case_bool_decide; [|by intros ?%not_elem_of_nil].
    intros ->%list_elem_of_singleton. split; [done|].
    by eexists.
Qed.

Lemma content_parts_split h r :
  content_parts h r = (front_parts r ++ homework_part h r)%list.
Proof.
  unfold content_parts, front_parts. by rewrite <- !(assoc_L app).
Qed.

(** No line before the homework step is a homework line. *)
Lemma front_parts_not_homework r q :
  q ∈ front_parts r → ¬ is_homework_line q.
Proof.
  unfold front_parts, header_parts. intros Hq [t ->].
  rewrite !elem_of_app, !elem_of_cons in Hq.
  destruct Hq as [[Hq|[Hq|[Hq|Hq]]]|[Hq|[Hq|[Hq|[Hq|Hq]]]]];
    try (apply optional_part_spec in Hq as (s & _ & _ & Hq));
    try (by apply elem_of_nil in Hq);
    rewrite ?string_app_cons in Hq; discriminate.
Qed.

(** Only the homework step makes a homework line. *)
Lemma homework_line_origin h r p :
  p ∈ content_parts h r → is_homework_line p → p ∈ homework_part h r.
Proof.
  rewrite content_parts_split, elem_of_app. intros [Hp|Hp] Hline; [|done].
  by destruct (front_parts_not_homework r p).
Qed.

Lemma front_parts_nonempty r : front_parts r ≠ [].
Proof. done. Qed.

(** ** Lines of a joined text *)

Lemma lines_nonempty s : lines s ≠ [].
Proof.
  destruct s as [|a s]; [done|]. cbn [lines].
  destruct (Ascii.eqb a "010"); [done|]. by destruct (lines s).
Qed.

Lemma lines_one_line_app p rest :
  one_line p →
  lines (p +:+ rest)
  = match lines rest with
    | [] => [p]
    | l :: ls => (p +:+ l) :: ls
    end.
Proof.
  induction p as [|a p IH]; intros Hp.
  - rewrite string_app_nil_l. pose proof (lines_nonempty rest).
    by destruct (lines rest).
  - cbn [one_line] in Hp. apply andb_True in Hp as [Ha Hp].
    rewrite string_app_cons. cbn [lines].
    destruct (Ascii.eqb a "010"); [by destruct Ha|].
    rewrite (IH Hp). by destruct (lines rest).
Qed.

Lemma lines_one_line p : one_line p → lines p = [p].
Proof.
  intros Hp. rewrite <- (string_app_nil_r p) at 1.
  rewrite (lines_one_line_app p "" Hp). cbn. by rewrite string_app_nil_r.
Qed.

Lemma lines_newline s : lines (Py.newline +:+ s) = "" :: lines s.
Proof. done. Qed.

(** Parts of one line each are the lines of their join. *)
Lemma lines_join parts :
  parts ≠ [] → Forall (λ p, one_line p) parts →
  lines (Py.join Py.newline parts) = parts.
Proof.
  induction parts as [|p parts IH]; [done|]. intros _ Hparts.
  apply Forall_cons in Hparts as [Hp Hparts].
  destruct parts as [|q parts].
  - rewrite join_singleton. by apply lines_one_line.
  - rewrite join_cons, (lines_one_line_app p _ Hp), lines_newline.
    rewrite IH by done. by rewrite string_app_nil_r.
Qed.

Lemma searchable_content_lines h r :
  Forall (λ p, one_line p) (content_parts h r) →
  lines (chunk_searchable_content (make_chunk h r)) = content_parts h r.
Proof.
  intros Hparts. unfold make_chunk. cbn [chunk_searchable_content].
  apply lines_join; [|done]. rewrite content_parts_split.
  intros [Hfront _]%app_eq_nil. by apply (front_parts_nonempty r).
Qed.
(** ** The homework lookup *)

Lemma homework_by_day_step_lookup (m : gmap day_key (list hw_item)) row k :
  homework_by_day_step m row !! k
  = if decide (row_key row = k)
    then Some (default [] (m !! k) ++ row_items row)%list
    else m !! k.
Proof.
  unfold homework_by_day_step, row_items. fold (row_key row).
  generalize (row_key row). intros k0.
  generalize {| title := hw_title row; tasks := Py.or_empty (hw_tasks row) |}.
  intros item.
  destruct (decide (k0 = k)) as [->|Hne].
  - destruct (m !! k) as [items|] eqn:Hm;
      destruct (Py.truthy (hw_title row)); simpl;
      rewrite ?lookup_alter_eq, ?lookup_insert_eq, ?Hm, ?(right_id_L [] app);
      done.
  - destruct (m !! k0) as [items|] eqn:Hm;
      destruct (Py.truthy (hw_title row));
      rewrite ?lookup_alter_ne, ?lookup_insert_ne by done; done.
Qed.

Lemma items_for_cons k row rows :
  items_for k (row :: rows)
  = if decide (row_key row = k)
    then (row_items row ++ items_for k rows)%list
    else items_for k rows.
Proof.
  unfold items_for. rewrite filter_cons.
  destruct (decide (row_key row = k)); done.
Qed.

Lemma items_for_none k (rows : list homework_row) :
  k ∉ row_key <$> rows → items_for k rows = [].
Proof.
  induction rows as [|row rows IH]; [done|].
  rewrite fmap_cons, not_elem_of_cons, items_for_cons. intros [Hne Hin].
  rewrite decide_False by done. by apply IH.
Qed.

Lemma foldl_homework_by_day_step (rows : list homework_row)
    (m : gmap day_key (list hw_item)) k :
  foldl homework_by_day_step m rows !! k
  = if decide (k ∈ row_key <$> rows)
    then Some (default [] (m !! k) ++ items_for k rows)%list
    else m !! k.
Proof.
  revert m. induction rows as [|row rows IH]; intros m.
  { rewrite fmap_nil. cbn [foldl].
    destruct (decide (k ∈ [])) as [Hin|]; [|done].
    by apply elem_of_nil in Hin. }
  rewrite fmap_cons. cbn [foldl].
  rewrite IH, homework_by_day_step_lookup, items_for_cons.
  destruct (decide (row_key row = k)) as [Hk|Hk].
  - rewrite (decide_True (P := k ∈ _ :: _)) by (subst; apply list_elem_of_here).
    destruct (decide (k ∈ row_key <$> rows)) as [Hin|Hin].
    + cbn [from_option id]. by rewrite <- (assoc_L app).
    + by rewrite (items_for_none k rows Hin), (right_id_L [] app).
  - destruct (decide (k ∈ row_key <$> rows)) as [Hin|Hin].
    + rewrite decide_True; [done|]. by apply list_elem_of_further.
    + rewrite decide_False; [done|].
      rewrite not_elem_of_cons. split; [congruence|done].
Qed.

(** The lookup as a whole: a key is present as soon as some row carries
    it, and holds what the rows of that key add, in order. *)
Lemma build_homework_by_day_lookup rows k :
  build_homework_by_day rows !! k
  = if decide (k ∈ row_key <$> rows) then Some (items_for k rows) else None.
Proof.
  unfold build_homework_by_day.
  rewrite foldl_homework_by_day_step, lookup_empty. done.
Qed.

Lemma elem_of_items_for k rows (hw : hw_item) :
  hw ∈ items_for k rows
  ↔ ∃ row,
      row ∈ rows ∧ row_key row = k ∧ Py.truthy (hw_title row)
      ∧ hw = {| title := hw_title row; tasks := Py.or_empty (hw_tasks row) |}.
Proof.
  unfold items_for. rewrite list_elem_of_bind. split.
  - intros (row & Hhw & [Hk Hrow]%list_elem_of_filter).
    exists row. unfold row_items in Hhw.
    destruct (Py.truthy (hw_title row)); [|by apply not_elem_of_nil in Hhw].
    apply list_elem_of_singleton in Hhw. done.
  - intros (row & Hrow & Hk & Ht & ->). exists row.
    split; [|by apply list_elem_of_filter].
    unfold row_items. destruct (Py.truthy (hw_title row)); [|done].
    apply list_elem_of_singleton. done.
Qed.
(** ** The homework query *)

Lemma elem_of_group_by {A K} (R : relation K) `{!RelDecision R, !EqDecision K}
    (key : A → K) (rows : list A) (g : K * list A) :
  g ∈ Sql.group_by R key rows
  ↔ g.1 ∈ key <$> rows ∧ g.2 = filter (λ r, key r = g.1) rows.
Proof.
  unfold Sql.group_by. rewrite list_elem_of_fmap.
  setoid_rewrite merge_sort_Permutation.
  setoid_rewrite elem_of_remove_dups.
  destruct g as [k rs]. simpl. split.
  - intros (k' & Heq & Hk'). injection Heq as -> ->. done.
  - intros [Hk ->]. exists k. done.
Qed.

(** The joined rows of the second query. *)
Lemma elem_of_homework_from db d ha ht :
  (d, ha, ht) ∈ homework_from db
  ↔ d ∈ days db
    ∧ match ha with
      | Some h => h ∈ homework_assignments db ∧ ha_day_id h = d_id d
      | None => ∀ h, h ∈ homework_assignments db → ha_day_id h ≠ d_id d
      end
    ∧ match ht with
      | Some t =>
          t ∈ homework_tasks db ∧ ha_id <$> ha = Some (ht_assignment_id t)
      | None =>
          ∀ t, t ∈ homework_tasks db → ha_id <$> ha ≠ Some (ht_assignment_id t)
      end.
Proof.
  unfold homework_from. rewrite !elem_of_left_join. simpl.
  assert (match ha with
          | Some h => h ∈ homework_assignments db
                      ∧ bool_decide (ha_day_id h = d_id d)
          | None => ∀ h, h ∈ homework_assignments db
                         → ¬ bool_decide (ha_day_id h = d_id d)
          end
          ↔ match ha with
            | Some h => h ∈ homework_assignments db ∧ ha_day_id h = d_id d
            | None => ∀ h, h ∈ homework_assignments db → ha_day_id h ≠ d_id d
            end) as ->.
  { destruct ha as [h|]; [by rewrite bool_decide_spec|].
    by setoid_rewrite bool_decide_spec. }
  assert (match ht with
          | Some t => t ∈ homework_tasks db
                      ∧ Sql.eq_null (ha_id <$> ha) (ht_assignment_id t)
          | None => ∀ t, t ∈ homework_tasks db
                         → ¬ Sql.eq_null (ha_id <$> ha) (ht_assignment_id t)
          end
          ↔ match ht with
            | Some t =>
                t ∈ homework_tasks db
                ∧ ha_id <$> ha = Some (ht_assignment_id t)
            | None =>
                ∀ t, t ∈ homework_tasks db
                     → ha_id <$> ha ≠ Some (ht_assignment_id t)
            end) as ->.
  { destruct ht as [t|]; [by rewrite eq_null_true|].
    by setoid_rewrite eq_null_true. }
  tauto.
Qed.

(** A day and one of its assignments always reach the joined rows. *)
Lemma homework_from_assignment db d h :
  d ∈ days db → h ∈ homework_assignments db → ha_day_id h = d_id d →
  ∃ ht, (d, Some h, ht) ∈ homework_from db.
Proof.
  intros Hd Hh Hday. unfold homework_from.
  apply left_join_covers, elem_of_left_join.
  split; [done|]. split; [done|]. by apply bool_decide_spec.
Qed.

(** So does a day without assignments, with NULLs. *)
Lemma homework_from_no_assignment db d :
  d ∈ days db →
  (∀ h, h ∈ homework_assignments db → ha_day_id h ≠ d_id d) →
  (d, None, None) ∈ homework_from db.
Proof.
  intros Hd Hnone. apply elem_of_homework_from. by repeat split.
Qed.

(** The rows the second query fetches: one per group key. *)
Lemma elem_of_homework_query db row :
  row ∈ homework_query db
  ↔ ∃ j,
      j ∈ homework_from db ∧ is_Some (d_module j.1.1)
      ∧ row
        = homework_select
            (homework_group_key j,
             filter (λ j', homework_group_key j' = homework_group_key j)
               (filter (λ j, homework_where j) (homework_from db))).
Proof.
  unfold homework_query. rewrite list_elem_of_fmap. split.
  - intros ([gk rows] & -> & [Hk Hrows]%elem_of_group_by). simpl in *.
    apply list_elem_of_fmap in Hk as (j & -> & [Hw Hj]%list_elem_of_filter).
    exists j. unfold homework_where in Hw. apply bool_decide_spec in Hw.
    by subst rows.
  - intros (j & Hj & Hm & ->). eexists. split; [done|].
    apply elem_of_group_by. simpl. split; [|done].
    apply list_elem_of_fmap. exists j. split; [done|].
    apply list_elem_of_filter. split; [|done].
    unfold homework_where. by apply bool_decide_spec.
Qed.

Lemma truthy_spec v : Py.truthy v ↔ ∃ s, v = Some s ∧ s ≠ "".
Proof.
  unfold Py.truthy. destruct v as [s|].
  - destruct (String.eqb_spec s "") as [->|Hne]; simpl; split.
    + done.
    + intros (s & Hs & Hne). by simplify_eq.
    + intros _. by exists s.
    + done.
  - split; [done|]. by intros (s & Hs & _).
Qed.

(** A key of the lookup holds an item exactly when a day of that key has an
    assignment with a title that is neither NULL nor empty. *)
Lemma homework_lookup_item db (k : day_key) :
  (∃ items hw, homework_lookup db !! k = Some items ∧ hw ∈ items)
  ↔ ∃ d h t,
      d ∈ days db ∧ is_Some (d_module d)
      ∧ k = (d_module d, Some (d_day_number d))
      ∧ h ∈ homework_assignments db ∧ ha_day_id h = d_id d
      ∧ ha_title h = Some t ∧ t ≠ "".
Proof.
  unfold homework_lookup. setoid_rewrite build_homework_by_day_lookup. split.
  - intros (items & hw & Hlook & Hhw).
    destruct (decide _) as [_|]; [|done]. simplify_eq.
    apply elem_of_items_for in Hhw as (row & Hrow & Hk & Ht & _).
    apply elem_of_homework_query in Hrow as ([[d ha] ht] & Hj & Hm & ->).
    simpl in *. apply truthy_spec in Ht as (t & Ht & Hne).
    destruct ha as [h|]; [|done]. simpl in Ht.
    apply elem_of_homework_from in Hj as (Hd & [Hh Hday] & _).
    exists d, h, t. by repeat split.
  - intros (d & h & t & Hd & Hm & -> & Hh & Hday & Ht & Hne).
    destruct (homework_from_assignment db d h Hd Hh Hday) as [ht Hj].
    set (j := (d, Some h, ht)) in *.
    set (row := homework_select
            (homework_group_key j,
             filter (λ j', homework_group_key j' = homework_group_key j)
               (filter (λ j, homework_where j) (homework_from db)))).
    assert (row ∈ homework_query db) as Hrow.
    { apply elem_of_homework_query. exists j. by repeat split. }
    assert (row_key row = (d_module d, Some (d_day_number d))) as Hk by done.
    eexists _, _. split.
    + rewrite decide_True; [done|].
      apply list_elem_of_fmap. exists row. done.
    + apply elem_of_items_for. exists row. repeat split; try done.
      apply truthy_spec. exists t. simpl. rewrite Ht. done.
Qed.
(** ** Claims about a chunk's lines *)

Lemma homework_part_nonempty h r :
  homework_part h r ≠ []
  ↔ 3 ≤ sequence_order r
    ∧ ∃ items hw, h !! (module r, day_number r) = Some items ∧ hw ∈ items.
Proof.
  unfold homework_part. destruct (h !! _) as [items|] eqn:Hl.
  - case_bool_decide as Hseq.
    + destruct items as [|hw items].
      * split; [done|].
        intros (_ & items' & hw' & [= <-] & Hin). by apply elem_of_nil in Hin.
      * split; [|done]. intros _. split; [done|].
        exists (hw :: items), hw. split; [done|apply list_elem_of_here].
    + split; [done|]. by intros [? _].
  - split; [done|]. by intros (_ & ? & ? & ? & _).
Qed.

(** C1 (amended): a fetched activity's content has a homework line exactly
    when its sequence order is at least 3 and a day of its (module, day
    number) key has a homework assignment whose title is neither NULL nor
    empty.  The lines are the parts the loop collects; they are the lines
    of the text itself when no part holds a newline. *)
Theorem homework_line_iff db r :
  r ∈ activities_query db →
  ((∃ p, p ∈ content_parts (homework_lookup db) r ∧ is_homework_line p)
   ↔ 3 ≤ sequence_order r
     ∧ ∃ d h t,
         d ∈ days db
         ∧ module r = d_module d ∧ day_number r = Some (d_day_number d)
         ∧ h ∈ homework_assignments db ∧ ha_day_id h = d_id d
         ∧ ha_title h = Some t ∧ t ≠ "")
  ∧ (Forall (λ p, one_line p) (content_parts (homework_lookup db) r) →
     lines (chunk_searchable_content (make_chunk (homework_lookup db) r))
     = content_parts (homework_lookup db) r).
Proof.
  intros (_ & m & _ & _ & Hm & _ & _)%activities_query_day.
  split; [|apply searchable_content_lines].
  transitivity (homework_part (homework_lookup db) r ≠ []).
  { split.
    - intros (p & Hp & Hline).
      apply homework_line_origin in Hp; [|done].
      intros Hnil. rewrite Hnil in Hp. by apply elem_of_nil in Hp.
    - intros Hne.
      destruct (homework_part (homework_lookup db) r) as [|p ps] eqn:Hpart;
        [done|].
      assert (p ∈ homework_part (homework_lookup db) r) as Hp
        by (rewrite Hpart; apply list_elem_of_here).
      exists p. split; [|by apply homework_part_spec in Hp as [_ ?]].
      unfold content_parts. rewrite !elem_of_app. by repeat right. }
  rewrite homework_part_nonempty, homework_lookup_item.
  split; intros [Hseq (d & h & t & Hd & H)]; (split; [done|]);
    exists d, h, t.
  - destruct H as (_ & [= Hmod Hday] & Hh & Hid & Ht & Hne). by repeat split.
  - destruct H as (Hmod & Hday & Hh & Hid & Ht & Hne). repeat split; try done.
    + rewrite <- Hmod, Hm. by eexists.
    + by rewrite Hmod, Hday.
Qed.
Lemma solar_row_fetched : activities_query solar_db = [solar_row].
Proof. vm_compute. reflexivity. Qed.

(** The worked example of the specification, and the same activity earlier
    in its day. *)
Example solar_searchable_content :
  chunk_searchable_content <$> export_chunks solar_db
  = [ "Module: Solar" +:+ Py.newline
      +:+ "Day 3: Photovoltaics" +:+ Py.newline
      +:+ "Session 4: Panel Wiring Lab" +:+ Py.newline
      +:+ "Purpose: Hands-on wiring practice" +:+ Py.newline
      +:+ "Duration: 45 min" +:+ Py.newline
      +:+ "Facilitator Script: Walk through safety steps" +:+ Py.newline
      +:+ "Homework: Reading: Read ch. 4 | Quiz prep" ]
  ∧ chunk_id <$> export_chunks solar_db = ["curr-42"].
Proof. vm_compute. done. Qed.

(** Its parts hold no newline, so they are the lines of the text. *)
Example solar_lines :
  Forall (λ p, one_line p) (content_parts (homework_lookup solar_db) solar_row)
  ∧ lines
      (chunk_searchable_content
         (make_chunk (homework_lookup solar_db) solar_row))
    = content_parts (homework_lookup solar_db) solar_row.
Proof.
  split; [|by vm_compute].
  apply (bool_decide_unpack _). vm_compute. exact I.
Qed.

(** The witness of [homework_line_iff]: the worked example. *)
Lemma homework_line_iff_witness :
  ((∃ p, p ∈ content_parts (homework_lookup solar_db) solar_row
         ∧ is_homework_line p)
   ↔ 3 ≤ sequence_order solar_row
     ∧ ∃ d h t,
         d ∈ days solar_db
         ∧ module solar_row = d_module d
         ∧ day_number solar_row = Some (d_day_number d)
         ∧ h ∈ homework_assignments solar_db ∧ ha_day_id h = d_id d
         ∧ ha_title h = Some t ∧ t ≠ "")
  ∧ (Forall (λ p, one_line p)
       (content_parts (homework_lookup solar_db) solar_row) →
     lines
       (chunk_searchable_content
          (make_chunk (homework_lookup solar_db) solar_row))
     = content_parts (homework_lookup solar_db) solar_row).
Proof.
  apply (homework_line_iff solar_db solar_row).
  rewrite solar_row_fetched. apply list_elem_of_here.
Defined.

(** C1 as stated fails on a title that is the empty string: the activity
    is fetched, its sequence order is 4, its day has an assignment whose
    title is not NULL, and yet no homework line is made. *)
Lemma homework_line_empty_title :
  solar_row ∈ activities_query empty_title_db
  ∧ 3 ≤ sequence_order solar_row
  ∧ (∃ d h t,
       d ∈ days empty_title_db
       ∧ module solar_row = d_module d
       ∧ day_number solar_row = Some (d_day_number d)
       ∧ h ∈ homework_assignments empty_title_db ∧ ha_day_id h = d_id d
       ∧ ha_title h = Some t)
  ∧ ¬ ∃ p, p ∈ content_parts (homework_lookup empty_title_db) solar_row
           ∧ is_homework_line p.
Proof.
  split; [|split; [|split]].
  - vm_compute. apply list_elem_of_here.
  - done.
  - exists (Day 7 (Some "Solar") 3 (Some "Photovoltaics")),
      (HomeworkAssignment 1 7 (Some "")), "".
    repeat split; apply list_elem_of_here.
  - intros (p & Hp & Hline).
    apply homework_line_origin in Hp; [|done].
    vm_compute in Hp. by apply elem_of_nil in Hp.
Qed.

(** The content starts with the three header lines; what follows, if
    anything, starts on a new line. *)
Lemma searchable_content_start h r :
  ∃ rest,
    chunk_searchable_content (make_chunk h r)
    = "Module: " +:+ Py.fmt_text (module r) +:+ Py.newline
      +:+ "Day " +:+ Py.fmt_int (day_number r) +:+ ": "
      +:+ Py.fmt_text (day_theme r) +:+ Py.newline
      +:+ "Session " +:+ Py.str_int (sequence_order r) +:+ ": "
      +:+ activity_name r +:+ rest
    ∧ (rest = "" ∨ ∃ more, rest = Py.newline +:+ more).
Proof.
  unfold make_chunk, content_parts, header_parts. cbn [chunk_searchable_content].
  set (tail := (optional_part _ _ ++ _)%list).
  cbn [app]. rewrite !join_cons.
  destruct (join_cons_tail Py.newline
              ("Session " +:+ Py.str_int (sequence_order r) +:+ ": "
               +:+ activity_name r) tail) as (rest & -> & Hrest).
  exists rest. split.
  - by rewrite !string_app_assoc.
  - destruct Hrest as [[_ ->]|[_ ->]]; [by left|right; by eexists].
Qed.

(** C2: whatever the row and the lookup, the content starts with the
    module line, the day line and the session line, in this order, and
    what follows, if anything, starts on a new line. *)
Theorem searchable_content_header h r :
  take 3 (content_parts h r)
  = [ "Module: " +:+ Py.fmt_text (module r);
      "Day " +:+ Py.fmt_int (day_number r) +:+ ": "
        +:+ Py.fmt_text (day_theme r);
      "Session " +:+ Py.str_int (sequence_order r) +:+ ": "
        +:+ activity_name r ]
  ∧ ∃ rest,
      chunk_searchable_content (make_chunk h r)
      = "Module: " +:+ Py.fmt_text (module r) +:+ Py.newline
        +:+ "Day " +:+ Py.fmt_int (day_number r) +:+ ": "
        +:+ Py.fmt_text (day_theme r) +:+ Py.newline
        +:+ "Session " +:+ Py.str_int (sequence_order r) +:+ ": "
        +:+ activity_name r +:+ rest
      ∧ (rest = "" ∨ ∃ more, rest = Py.newline +:+ more).
Proof.
  split; [done|apply searchable_content_start].
Qed.
(** C9: a homework line of a chunk is the last of its lines: no line
    before it is a homework line, and the content ends with a newline and
    that line; it is the last line of the text itself when no part holds a
    newline. *)
Theorem homework_line_last h r p :
  p ∈ content_parts h r → is_homework_line p →
  ∃ front,
    content_parts h r = (front ++ [p])%list
    ∧ (∀ q, q ∈ front → ¬ is_homework_line q)
    ∧ last (content_parts h r) = Some p
    ∧ chunk_searchable_content (make_chunk h r)
      = Py.join Py.newline front +:+ Py.newline +:+ p
    ∧ (Forall (λ q, one_line q) (content_parts h r) →
       last (lines (chunk_searchable_content (make_chunk h r))) = Some p).
Proof.
  intros Hp Hline.
  apply homework_line_origin, homework_part_spec in Hp as [Hpart _]; [|done].
  exists (front_parts r).
  assert (content_parts h r = (front_parts r ++ [p])%list) as Hsplit
    by (by rewrite content_parts_split, Hpart).
  split; [done|]. split; [apply front_parts_not_homework|].
  split; [by rewrite Hsplit, last_snoc|]. split.
  - unfold make_chunk. cbn [chunk_searchable_content].
    rewrite Hsplit. apply join_snoc, front_parts_nonempty.
  - intros Hlines. rewrite searchable_content_lines by done.
    by rewrite Hsplit, last_snoc.
Qed.

(** The witness of [homework_line_last]: the worked example. *)
Lemma homework_line_last_witness :
  ∃ front,
    content_parts (homework_lookup solar_db) solar_row
    = (front ++ ["Homework: Reading: Read ch. 4 | Quiz prep"])%list
    ∧ (∀ q, q ∈ front → ¬ is_homework_line q)
    ∧ last (content_parts (homework_lookup solar_db) solar_row)
      = Some "Homework: Reading: Read ch. 4 | Quiz prep"
    ∧ chunk_searchable_content
        (make_chunk (homework_lookup solar_db) solar_row)
      = Py.join Py.newline front +:+ Py.newline
        +:+ "Homework: Reading: Read ch. 4 | Quiz prep"
    ∧ (Forall (λ q, one_line q)
         (content_parts (homework_lookup solar_db) solar_row) →
       last
         (lines
            (chunk_searchable_content
               (make_chunk (homework_lookup solar_db) solar_row)))
       = Some "Homework: Reading: Read ch. 4 | Quiz prep").
Proof.
  apply (homework_line_last (homework_lookup solar_db) solar_row).
  - vm_compute. do 6 apply list_elem_of_further. apply list_elem_of_here.
  - by exists "Reading: Read ch. 4 | Quiz prep".
Defined.

(** C10: when the day of a fetched activity has no theme, the day line
    ends with the word None, and the chunk keeps a null [day_theme], which
    the sink writes as null. *)
Theorem null_theme_line db r :
  r ∈ activities_query db → day_theme r = None →
  ∃ m n,
    module r = Some m ∧ day_number r = Some n
    ∧ content_parts (homework_lookup db) r !! 1%nat
      = Some ("Day " +:+ Py.str_int n +:+ ": None")
    ∧ (∃ rest,
         chunk_searchable_content (make_chunk (homework_lookup db) r)
         = "Module: " +:+ m +:+ Py.newline
           +:+ "Day " +:+ Py.str_int n +:+ ": None" +:+ Py.newline +:+ rest)
    ∧ chunk_day_theme (make_chunk (homework_lookup db) r) = None
    ∧ Json.text (chunk_day_theme (make_chunk (homework_lookup db) r))
      = "null".
Proof.
  intros (d & m & _ & _ & Hm & Hn & _)%activities_query_day Htheme.
  exists m, (d_day_number d). split; [done|]. split; [done|].
  split; [|split; [|split]].
  - unfold content_parts, header_parts. cbn [app lookup list_lookup].
    by rewrite Hn, Htheme.
  - destruct (searchable_content_start (homework_lookup db) r)
      as (rest & -> & _).
    rewrite Hm, Hn, Htheme.
    exists ("Session " +:+ Py.str_int (sequence_order r) +:+ ": "
            +:+ activity_name r +:+ rest).
    reflexivity.
  - done.
  - cbn. by rewrite Htheme.
Qed.

(** The witness of [null_theme_line]: the worked example without its
    theme. *)
Lemma null_theme_line_witness :
  ∃ m n,
    module no_theme_row = Some m ∧ day_number no_theme_row = Some n
    ∧ content_parts (homework_lookup no_theme_db) no_theme_row !! 1%nat
      = Some ("Day " +:+ Py.str_int n +:+ ": None")
    ∧ (∃ rest,
         chunk_searchable_content
           (make_chunk (homework_lookup no_theme_db) no_theme_row)
         = "Module: " +:+ m +:+ Py.newline
           +:+ "Day " +:+ Py.str_int n +:+ ": None" +:+ Py.newline +:+ rest)
    ∧ chunk_day_theme (make_chunk (homework_lookup no_theme_db) no_theme_row)
      = None
    ∧ Json.text
        (chunk_day_theme (make_chunk (homework_lookup no_theme_db) no_theme_row))
      = "null".
Proof.
  apply (null_theme_line no_theme_db no_theme_row).
  - vm_compute. apply list_elem_of_here.
  - done.
Defined.
(** ** Counting chunks *)

Lemma with_activities_id db : with_activities db (activities db) = db.
Proof. by destruct db. Qed.

Lemma homework_lookup_with_activities db acts :
  homework_lookup (with_activities db acts) = homework_lookup db.
Proof. done. Qed.

Lemma left_join_app {A B} (on : A → B → bool) l1 l2 r :
  Sql.left_join on (l1 ++ l2) r
  = (Sql.left_join on l1 r ++ Sql.left_join on l2 r)%list.
Proof. unfold Sql.left_join. apply bind_app. Qed.

(** The joined and filtered rows, before ORDER BY. *)
Lemma activities_rows_cons db a acts :
  filter (λ j, activities_where j)
    (activities_from (with_activities db (a :: acts)))
  = (filter (λ j, activities_where j)
       (activities_from (with_activities db [a]))
     ++ filter (λ j, activities_where j)
          (activities_from (with_activities db acts)))%list.
Proof.
  unfold activities_from. cbn [with_activities activities days learning_blocks].
  rewrite (left_join_cons _ a acts), left_join_app, filter_app. done.
Qed.

Lemma export_chunks_unordered db :
  export_chunks db
  ≡ₚ make_chunk (homework_lookup db)
       <$> (activities_select
              <$> filter (λ j, activities_where j) (activities_from db)).
Proof.
  unfold export_chunks, activities_query, Sql.order_by.
  by rewrite merge_sort_Permutation.
Qed.

(** The chunks are those of the activities taken one at a time. *)
Lemma export_chunks_per_activity db :
  export_chunks db
  ≡ₚ a ← activities db; export_chunks (with_activities db [a]).
Proof.
  rewrite <- (with_activities_id db) at 1.
  induction (activities db) as [|a acts IH].
  { by vm_compute. }
  rewrite bind_cons, <- IH, !export_chunks_unordered.
  rewrite !homework_lookup_with_activities, activities_rows_cons.
  by rewrite !fmap_app.
Qed.

Lemma filter_unique {A K} `{!EqDecision K} (f : A → K) (P : A → Prop)
    `{!∀ x, Decision (P x)} (l : list A) x :
  NoDup (f <$> l) → (∀ y, P y → f y = f x) → x ∈ l → P x →
  filter P l = [x].
Proof.
  intros Hnd Hf. induction l as [|y l IH]; [by intros ?%elem_of_nil|].
  rewrite fmap_cons, NoDup_cons in Hnd. destruct Hnd as [Hy Hnd].
  rewrite elem_of_cons, filter_cons. intros [<-|Hx] HP.
  - rewrite decide_True by done. f_equal.
    apply elem_of_nil_inv. intros z [HPz Hz]%list_elem_of_filter.
    apply Hy. rewrite <- (Hf z HPz). by apply list_elem_of_fmap_2.
  - destruct (decide (P y)) as [HPy|]; [|by apply IH].
    destruct Hy. rewrite (Hf y HPy). by apply list_elem_of_fmap_2.
Qed.


(** With primary keys, a left join on a key keeps one row per left row. *)
Lemma left_join_singleton {A B K} `{!EqDecision K}
    (on : A → B → bool) (f : B → K) (a : A) (r : list B) :
  NoDup (f <$> r) →
  (∀ b b', on a b → on a b' → f b = f b') →
  ∃ ob, Sql.left_join on [a] r = [(a, ob)].
Proof.
  intros Hnd Hon. unfold Sql.left_join. rewrite bind_singleton.
  destruct (filter (λ b, on a b) r) as [|b bs] eqn:Hf; [by exists None|].
  exists (Some b).
  assert (b ∈ filter (λ b, on a b) r) as [Hb Hin]%list_elem_of_filter
    by (rewrite Hf; apply list_elem_of_here).
  rewrite (filter_unique f (λ b, on a b) r b) in Hf; try done.
  - by injection Hf as <-.
  - intros b' Hb'. by apply Hon.
Qed.

(** A qualifying activity makes one chunk, named after it. *)
Lemma export_chunks_qualifying db a :
  primary_keys db → qualifies db a →
  ∃ c,
    export_chunks (with_activities db [a]) = [c]
    ∧ chunk_id c = "curr-" +:+ Py.str_int (a_id a)
    ∧ chunk_activity_name c = a_name a.
Proof.
  intros [Hdays Hlbs] (d & Hd & Hday & Hm)%Exists_exists.
  assert (∃ lb, activities_from (with_activities db [a]) = [(a, Some d, lb)])
    as [lb Hfrom].
  { unfold activities_from.
    cbn [with_activities activities days learning_blocks].
    assert (Sql.left_join (λ a d, Sql.eq_null (a_day_id a) (d_id d))
              [a] (days db) = [(a, Some d)]) as Hod.
    { unfold Sql.left_join. rewrite bind_singleton.
      rewrite (filter_unique d_id _ (days db) d); try done.
      - intros d' Hd'%eq_null_true. congruence.
      - by apply eq_null_true. }
    rewrite Hod.
    destruct (left_join_singleton
                (λ (j : activity * option day) lb,
                   Sql.eq_null (a_block_id j.1) (lb_id lb))
                lb_id (a, Some d) (learning_blocks db))
      as [lb Hlb]; [done|..].
    { intros b1 b2 H1%eq_null_true H2%eq_null_true. simpl in *. congruence. }
    exists lb. exact Hlb. }
  exists (make_chunk (homework_lookup db) (activities_select (a, Some d, lb))).
  split; [|done].
  unfold export_chunks, activities_query, Sql.order_by. rewrite Hfrom.
  rewrite filter_cons, decide_True; [done|].
  unfold activities_where. by apply bool_decide_spec.
Qed.

(** An activity that does not qualify makes none. *)
Lemma export_chunks_not_qualifying db a :
  ¬ qualifies db a → export_chunks (with_activities db [a]) = [].
Proof.
  intros Hq. unfold export_chunks.
  assert (activities_query (with_activities db [a]) = []) as ->; [|done].
  apply elem_of_nil_inv.
  intros r (a' & d & lb & Ha & Hd & Hday & Hm & _)%elem_of_activities_query.
  apply list_elem_of_singleton in Ha as ->. apply Hq, Exists_exists.
  by exists d.
Qed.

(** C3: with identifiers as primary keys, the export makes the chunks of
    its activities taken one by one, one chunk for an activity whose day
    exists and has a module, none for any other; so there are as many chunks
    as qualifying activities. *)
Theorem chunk_count db :
  primary_keys db →
  export_chunks db
  ≡ₚ (a ← activities db; export_chunks (with_activities db [a]))
  ∧ (∀ a, qualifies db a →
       ∃ c,
         export_chunks (with_activities db [a]) = [c]
         ∧ chunk_id c = "curr-" +:+ Py.str_int (a_id a)
         ∧ chunk_activity_name c = a_name a)
  ∧ (∀ a, ¬ qualifies db a → export_chunks (with_activities db [a]) = [])
  ∧ length (export_chunks db)
    = length (filter (qualifies db) (activities db)).
Proof.
  intros Hpk. split; [apply export_chunks_per_activity|].
  split; [intros a; by apply export_chunks_qualifying|].
  split; [apply export_chunks_not_qualifying|].
  rewrite export_chunks_per_activity.
  induction (activities db) as [|a acts IH]; [done|].
  rewrite bind_cons, length_app, IH, filter_cons.
  destruct (decide (qualifies db a)) as [Hq|Hq].
  - by destruct (export_chunks_qualifying db a Hpk Hq) as (c & -> & _).
  - by rewrite export_chunks_not_qualifying.
Qed.
(** The witness of [chunk_count]: three activities, one chunk. *)
Lemma chunk_count_witness :
  export_chunks mixed_db
  ≡ₚ (a ← activities mixed_db; export_chunks (with_activities mixed_db [a]))
  ∧ (∀ a, qualifies mixed_db a →
       ∃ c,
         export_chunks (with_activities mixed_db [a]) = [c]
         ∧ chunk_id c = "curr-" +:+ Py.str_int (a_id a)
         ∧ chunk_activity_name c = a_name a)
  ∧ (∀ a, ¬ qualifies mixed_db a →
       export_chunks (with_activities mixed_db [a]) = [])
  ∧ length (export_chunks mixed_db)
    = length (filter (qualifies mixed_db) (activities mixed_db)).
Proof.
  apply (chunk_count mixed_db).
  split; apply (bool_decide_unpack _); vm_compute; exact I.
Defined.

(** ** The run *)

Lemma export_chunks_no_activities db :
  activities db = [] → export_chunks db = [].
Proof.
  intros Hacts. unfold export_chunks, activities_query, activities_from.
  rewrite Hacts. done.
Qed.

(** C7: without activities the run writes the empty array and prints a
    count of 0 for each module of the breakdown. *)
Theorem export_empty_source (OUTPUT_PATH : string) (w : world) :
  activities (source w) = [] →
  files (export_curriculum OUTPUT_PATH w) !! OUTPUT_PATH = Some "[]"
  ∧ Forall (λ name, module_count (export_chunks (source w)) name = 0)
      breakdown_modules
  ∧ stdout (export_curriculum OUTPUT_PATH w)
    = print "  Insulation: 0 activities"
        (print "  Solar: 0 activities"
           (print "  Architecture: 0 activities"
              (print (Py.newline +:+ "Breakdown:")
                 (print
                    ("âœ… Exported 0 curriculum activities to "
                     +:+ OUTPUT_PATH)
                    (stdout w))))).
Proof.
  intros Hacts%export_chunks_no_activities.
  unfold export_curriculum. cbn [source files stdout]. rewrite Hacts.
  split; [apply lookup_insert_eq|]. split; [|done].
  by repeat constructor.
Qed.

(** The witness of [export_empty_source]. *)
Lemma export_empty_source_witness :
  files (export_curriculum "data/curriculum_content.json" empty_world)
    !! "data/curriculum_content.json"
  = Some "[]"
  ∧ Forall (λ name, module_count (export_chunks (source empty_world)) name = 0)
      breakdown_modules
  ∧ stdout (export_curriculum "data/curriculum_content.json" empty_world)
    = print "  Insulation: 0 activities"
        (print "  Solar: 0 activities"
           (print "  Architecture: 0 activities"
              (print (Py.newline +:+ "Breakdown:")
                 (print
                    ("âœ… Exported 0 curriculum activities to "
                     +:+ "data/curriculum_content.json")
                    (stdout empty_world))))).
Proof.
  apply (export_empty_source "data/curriculum_content.json" empty_world).
  done.
Defined.
(** ** A day without homework *)

Lemma group_concat_none sep (vals : list (option string)) :
  (∀ v, v ∈ vals → v = None) → Sql.group_concat sep vals = None.
Proof.
  intros Hvals. unfold Sql.group_concat.
  assert (omap id vals = []) as ->; [|done].
  apply elem_of_nil_inv. intros s (v & Hv & Hs)%list_elem_of_omap.
  rewrite (Hvals v Hv) in Hs. done.
Qed.

(** Its row has a NULL title and NULL tasks. *)
Lemma null_homework_row_fetched db d :
  d ∈ days db → is_Some (d_module d) →
  (∀ h, h ∈ homework_assignments db → ha_day_id h ≠ d_id d) →
  null_homework_row d ∈ homework_query db.
Proof.
  intros Hd Hm Hnone. apply elem_of_homework_query.
  exists (d, None, None).
  split; [by apply homework_from_no_assignment|]. split; [done|].
  unfold homework_select, null_homework_row. cbn. f_equal.
  symmetry. apply group_concat_none.
  intros v ([[d' ha] ht] & -> & [Hkey [_ Hj]%list_elem_of_filter]%list_elem_of_filter)
           %list_elem_of_fmap.
  unfold homework_group_key in Hkey. cbn in Hkey.
  injection Hkey as Hid _ _ _.
  apply elem_of_homework_from in Hj as (_ & Hha & Hht).
  destruct ha as [h|].
  { destruct Hha as [Hh Hday]. destruct (Hnone h Hh). congruence. }
  destruct ht as [t|]; [|done]. by destruct Hht.
Qed.

(** Every item of the lookup comes from an assignment of a day of its key. *)
Lemma homework_lookup_origin db k items hw :
  homework_lookup db !! k = Some items → hw ∈ items →
  ∃ d h t,
    d ∈ days db ∧ k = (d_module d, Some (d_day_number d))
    ∧ h ∈ homework_assignments db ∧ ha_day_id h = d_id d
    ∧ ha_title h = Some t ∧ t ≠ "" ∧ title hw = Some t.
Proof.
  unfold homework_lookup. rewrite build_homework_by_day_lookup.
  destruct (decide _) as [_|]; [|done]. intros [= <-] Hhw.
  apply elem_of_items_for in Hhw as (row & Hrow & Hk & Ht & ->).
  apply elem_of_homework_query in Hrow as ([[d ha] ht] & Hj & Hm & ->).
  cbn in *. apply truthy_spec in Ht as (t & Ht & Hne).
  destruct ha as [h|]; [|done]. cbn in Ht.
  apply elem_of_homework_from in Hj as (Hd & [Hh Hday] & _).
  exists d, h, t. by repeat split.
Qed.

(** C8 (amended): a day with a module and without assignments gives a row
    with NULL title and tasks, which adds no item; its key is nevertheless
    in the lookup, with items of other days only (none, when no other day
    has its module and number). *)
Theorem day_without_homework db d :
  d ∈ days db → is_Some (d_module d) →
  (∀ h, h ∈ homework_assignments db → ha_day_id h ≠ d_id d) →
  null_homework_row d ∈ homework_query db
  ∧ row_items (null_homework_row d) = []
  ∧ ∃ items,
      homework_lookup db !! (d_module d, Some (d_day_number d)) = Some items
      ∧ ∀ hw, hw ∈ items →
          ∃ d' h,
            d' ∈ days db ∧ d_id d' ≠ d_id d
            ∧ d_module d' = d_module d ∧ d_day_number d' = d_day_number d
            ∧ h ∈ homework_assignments db ∧ ha_day_id h = d_id d'
            ∧ title hw = ha_title h.
Proof.
  intros Hd Hm Hnone.
  pose proof (null_homework_row_fetched db d Hd Hm Hnone) as Hrow.
  split; [done|]. split; [done|].
  destruct (homework_lookup db !! (d_module d, Some (d_day_number d)))
    as [items|] eqn:Hlook.
  - exists items. split; [done|]. intros hw Hhw.
    destruct (homework_lookup_origin db _ items hw Hlook Hhw)
      as (d' & h & t & Hd' & [= Hmod Hnum] & Hh & Hday & Ht & _ & Htitle).
    exists d', h. repeat split; try done.
    + intros Hid. destruct (Hnone h Hh). congruence.
    + congruence.
  - unfold homework_lookup in Hlook.
    rewrite build_homework_by_day_lookup in Hlook.
    destruct (decide _) as [|Hkey]; [done|]. destruct Hkey.
    apply list_elem_of_fmap. by exists (null_homework_row d).
Qed.

(** The witness of [day_without_homework]: the worked example without its
    homework. *)
Lemma day_without_homework_witness :
  null_homework_row (Day 7 (Some "Solar") 3 (Some "Photovoltaics"))
    ∈ homework_query no_homework_db
  ∧ row_items (null_homework_row (Day 7 (Some "Solar") 3 (Some "Photovoltaics")))
    = []
  ∧ ∃ items,
      homework_lookup no_homework_db !! (Some "Solar", Some 3) = Some items
      ∧ ∀ hw, hw ∈ items →
          ∃ d' h,
            d' ∈ days no_homework_db ∧ d_id d' ≠ 7
            ∧ d_module d' = Some "Solar" ∧ d_day_number d' = 3
            ∧ h ∈ homework_assignments no_homework_db ∧ ha_day_id h = d_id d'
            ∧ title hw = ha_title h.
Proof.
  apply (day_without_homework no_homework_db
           (Day 7 (Some "Solar") 3 (Some "Photovoltaics"))).
  - apply list_elem_of_here.
  - by eexists.
  - by intros h ?%elem_of_nil.
Defined.

(** C8 as stated fails on the key: for the one day of this database, which
    has a module and no assignment, the key is in the lookup, with an empty
    list. *)
Lemma day_without_homework_key_present :
  Day 7 (Some "Solar") 3 (Some "Photovoltaics") ∈ days no_homework_db
  ∧ homework_assignments no_homework_db = []
  ∧ homework_lookup no_homework_db !! (Some "Solar", Some 3) = Some []
  ∧ homework_lookup no_homework_db !! (Some "Solar", Some 3) ≠ None.
Proof.
  split; [apply list_elem_of_here|]. split; [done|].
  assert (homework_lookup no_homework_db !! (Some "Solar", Some 3) = Some [])
    as -> by (by vm_compute).
  done.
Qed.
(** ** The rows of one assignment *)


Lemma bind_filter {A B} (P : A → Prop) `{!∀ x, Decision (P x)}
    (f : A → list B) (l : list A) :
  l ≫= (λ x, if decide (P x) then f x else []) = filter P l ≫= f.
Proof.
  induction l as [|x l IH]; [done|].
  rewrite bind_cons, filter_cons, IH.
  destruct (decide (P x)); [by rewrite bind_cons|done].
Qed.



Lemma filter_all {A} (P : A → Prop) `{!∀ x, Decision (P x)} (l : list A) :
  (∀ x, x ∈ l → P x) → filter P l = l.
Proof.
  induction l as [|x l IH]; [done|]. intros Hl.
  rewrite filter_cons, decide_True by (apply Hl; by left).
  f_equal. apply IH. intros y Hy. apply Hl. by right.
Qed.





(** ** The homework line *)


(** The line itself: the items of the key, each as its title, a colon and
    its tasks, joined by ["; "]. *)
Lemma homework_part_text db r items :
  homework_lookup db !! (module r, day_number r) = Some items →
  items ≠ [] → 3 ≤ sequence_order r →
  homework_part (homework_lookup db) r
  = [ "Homework: "
      +:+ Py.join "; "
            ((λ hw, Py.fmt_text (title hw) +:+ ": " +:+ tasks hw) <$> items) ].
Proof.
  intros Hlook Hne Hseq. unfold homework_part. rewrite Hlook.
  rewrite bool_decide_true by done.
  destruct items as [|hw items]; [done|].
  rewrite filter_all; [done|]. intros hw' Hhw'.
  destruct (homework_lookup_origin db _ _ hw' Hlook Hhw')
    as (_ & _ & t & _ & _ & _ & _ & _ & Hne' & ->).
  apply truthy_spec. by exists t.
Qed.
(** Two assignments of different titles, the first with two tasks. *)
Example two_titles_homework_line :
  homework_part (homework_lookup two_titles_db) solar_row
  = ["Homework: Reading: Read ch. 4 | Quiz prep; Writing: Essay"].
Proof. by vm_compute. Qed.

(** * Further properties of the export *)

(** ** The optional lines *)

Lemma elem_of_optional_part label v p :
  p ∈ optional_part label v ↔ ∃ s, v = Some s ∧ s ≠ "" ∧ p = label +:+ s.
Proof.
  split; [apply optional_part_spec|].
  intros (s & -> & Hne & ->). unfold optional_part.
  assert (Py.truthy (Some s)) as Ht by (apply truthy_spec; by exists s).
  destruct (Py.truthy (Some s)); [|done]. apply list_elem_of_here.
Qed.

(** Where a part of the content comes from. *)
Lemma elem_of_content_parts h r p :
  p ∈ content_parts h r
  ↔ p ∈ header_parts r
    ∨ p ∈ optional_part "Learning Block Focus: " (learning_block_focus r)
    ∨ p ∈ optional_part "Purpose: " (purpose r)
    ∨ p ∈ optional_part "Duration: " (duration r)
    ∨ p ∈ optional_part "Facilitator Script: " (facilitator_script r)
    ∨ p ∈ optional_part "Transition: " (transition_script r)
    ∨ p ∈ homework_part h r.
Proof. unfold content_parts. by rewrite !elem_of_app. Qed.

(** The equation of two labelled lines with different labels is absurd. *)
Ltac label_clash H :=
  exfalso; repeat rewrite string_app_cons in H; discriminate H.

(** What a line of an optional step says of its field.  [others] are the
    cases of the other steps, closed by the clash of their labels. *)
Ltac optional_line_cases Hp :=
  apply elem_of_content_parts in Hp;
  unfold header_parts in Hp; rewrite !elem_of_cons, elem_of_nil in Hp;
  rewrite !elem_of_optional_part in Hp;
  destruct Hp as [[Hp|[Hp|[Hp|[]]]]|[Hp|[Hp|[Hp|[Hp|[Hp|Hp]]]]]];
  try (apply homework_part_spec in Hp as [_ [hw Hp]]);
  try (destruct Hp as (s' & Hv & Hne & Hp));
  try (label_clash Hp).

(** X1: an optional step adds its line exactly when its field is neither NULL
    nor empty, and no other step adds a line of that label; no part of the
    content is empty. *)
Theorem optional_lines h r :
  (∀ s, "Learning Block Focus: " +:+ s ∈ content_parts h r
        ↔ learning_block_focus r = Some s ∧ s ≠ "")
  ∧ (∀ s, "Purpose: " +:+ s ∈ content_parts h r
          ↔ purpose r = Some s ∧ s ≠ "")
  ∧ (∀ s, "Duration: " +:+ s ∈ content_parts h r
          ↔ duration r = Some s ∧ s ≠ "")
  ∧ (∀ s, "Facilitator Script: " +:+ s ∈ content_parts h r
          ↔ facilitator_script r = Some s ∧ s ≠ "")
  ∧ (∀ s, "Transition: " +:+ s ∈ content_parts h r
          ↔ transition_script r = Some s ∧ s ≠ "")
  ∧ (∀ p, p ∈ content_parts h r → p ≠ "").
Proof.
  split; [|split; [|split; [|split; [|split]]]];
    try (intros s; split; [intros Hp|intros [Hv Hne]]).
  1,3,5,7,9:
    optional_line_cases Hp;
    apply (inj (String.app _)) in Hp as ->; done.
  1,2,3,4,5:
    apply elem_of_content_parts; rewrite !elem_of_optional_part;
    eauto 10.
  intros p Hp ->. optional_line_cases Hp.
Qed.
(** ** The guards of the homework step *)

(** A day always reaches the joined rows of the second query. *)
Lemma homework_from_day db d :
  d ∈ days db → ∃ ha ht, (d, ha, ht) ∈ homework_from db.
Proof.
  intros Hd. unfold homework_from.
  destruct (left_join_covers (λ d ha, bool_decide (ha_day_id ha = d_id d))
              (days db) (homework_assignments db) d Hd) as [ha Hha].
  destruct (left_join_covers
              (λ (j : day * option homework_assignment) ht,
                 Sql.eq_null (ha_id <$> j.2) (ht_assignment_id ht))
              _ (homework_tasks db) (d, ha) Hha) as [ht Hht].
  by exists ha, ht.
Qed.

(** A fetched homework row is the row of a day with a module. *)
Lemma homework_query_day db row :
  row ∈ homework_query db →
  ∃ d,
    d ∈ days db ∧ is_Some (d_module d)
    ∧ hw_day_id row = d_id d ∧ hw_module row = d_module d
    ∧ hw_day_number row = d_day_number d.
Proof.
  intros ([[d ha] ht] & Hj & Hm & ->)%elem_of_homework_query.
  apply elem_of_homework_from in Hj as (Hd & _). by exists d.
Qed.

(** X2: the keys of the lookup are the (module, day number) pairs of the
    days that have a module, with or without homework; so the key of every
    fetched activity is in the lookup, and the membership test of the
    homework step never fails. *)
Theorem homework_lookup_keys db :
  (∀ k,
     is_Some (homework_lookup db !! k)
     ↔ ∃ d,
         d ∈ days db ∧ is_Some (d_module d)
         ∧ k = (d_module d, Some (d_day_number d)))
  ∧ Forall
      (λ r, is_Some (homework_lookup db !! (module r, day_number r)))
      (activities_query db).
Proof.
  assert (∀ k,
     is_Some (homework_lookup db !! k)
     ↔ ∃ d,
         d ∈ days db ∧ is_Some (d_module d)
         ∧ k = (d_module d, Some (d_day_number d))) as Hkeys.
  { intros k. unfold homework_lookup. rewrite build_homework_by_day_lookup.
    split.
    - destruct (decide _) as [Hk|]; [|by intros [? ?]]. intros _.
      apply list_elem_of_fmap in Hk as (row & -> & Hrow).
      apply homework_query_day in Hrow as (d & Hd & Hm & _ & Hmod & Hnum).
      exists d. unfold row_key. by rewrite Hmod, Hnum.
    - intros (d & Hd & Hm & ->).
      destruct (homework_from_day db d Hd) as (ha & ht & Hj).
      rewrite decide_True; [by eexists|].
      apply list_elem_of_fmap. eexists. split; [|apply elem_of_homework_query].
      2: { exists (d, ha, ht). by repeat split. }
      done. }
  split; [done|]. apply Forall_forall. intros r Hr. apply Hkeys.
  apply activities_query_day in Hr as (d & m & Hd & Hm & Hmod & Hnum & _).
  exists d. split; [done|]. split; [by rewrite Hm|]. by rewrite Hmod, Hnum, Hm.
Qed.

(** X3: every item of the lookup carries a title that is neither NULL nor
    empty, so the filter on titles of the homework step drops nothing. *)
Theorem homework_lookup_titled db :
  map_Forall
    (λ _ items,
       Forall (λ hw, ∃ t, title hw = Some t ∧ t ≠ "") items
       ∧ filter (λ hw, Py.truthy (title hw)) items = items)
    (homework_lookup db).
Proof.
  intros k items Hlook.
  assert (Forall (λ hw, ∃ t, title hw = Some t ∧ t ≠ "") items) as Htitled.
  { apply Forall_forall. intros hw Hhw.
    destruct (homework_lookup_origin db k items hw Hlook Hhw)
      as (_ & _ & t & _ & _ & _ & _ & _ & Hne & Ht).
    by exists t. }
  split; [done|]. apply filter_all. intros hw Hhw.
  apply truthy_spec. by apply (proj1 (Forall_forall _ _) Htitled).
Qed.
(** ** Where a chunk comes from *)

(** X4: every chunk is made of one activity and the day it belongs to, a day
    with a module: its fields are their columns, unchanged, and its
    identifier is [curr-] and the activity's identifier. *)
Theorem chunk_sources db c :
  c ∈ export_chunks db →
  ∃ a d,
    a ∈ activities db ∧ d ∈ days db
    ∧ a_day_id a = Some (d_id d) ∧ is_Some (d_module d)
    ∧ chunk_id c = "curr-" +:+ Py.str_int (a_id a)
    ∧ chunk_content_type c = "curriculum_activity"
    ∧ chunk_module c = d_module d
    ∧ chunk_day c = Some (d_day_number d)
    ∧ chunk_day_theme c = d_theme d
    ∧ chunk_session_number c = a_sequence_order a
    ∧ chunk_activity_name c = a_name a
    ∧ chunk_purpose c = a_purpose a
    ∧ chunk_duration c = a_duration a
    ∧ chunk_facilitator_script c = a_facilitator_script a
    ∧ chunk_transition_script c = a_transition_script a.
Proof.
  unfold export_chunks. intros (r & -> & Hr)%list_elem_of_fmap.
  apply elem_of_activities_query in Hr
    as (a & d & lb & Ha & Hd & Hday & Hm & _ & ->).
  exists a, d. by repeat split.
Qed.

(** The witness of [chunk_sources]: the worked example. *)
Lemma chunk_sources_witness :
  ∃ a d,
    a ∈ activities solar_db ∧ d ∈ days solar_db
    ∧ a_day_id a = Some (d_id d) ∧ is_Some (d_module d)
    ∧ chunk_id (make_chunk (homework_lookup solar_db) solar_row)
      = "curr-" +:+ Py.str_int (a_id a)
    ∧ chunk_content_type (make_chunk (homework_lookup solar_db) solar_row)
      = "curriculum_activity"
    ∧ chunk_module (make_chunk (homework_lookup solar_db) solar_row)
      = d_module d
    ∧ chunk_day (make_chunk (homework_lookup solar_db) solar_row)
      = Some (d_day_number d)
    ∧ chunk_day_theme (make_chunk (homework_lookup solar_db) solar_row)
      = d_theme d
    ∧ chunk_session_number (make_chunk (homework_lookup solar_db) solar_row)
      = a_sequence_order a
    ∧ chunk_activity_name (make_chunk (homework_lookup solar_db) solar_row)
      = a_name a
    ∧ chunk_purpose (make_chunk (homework_lookup solar_db) solar_row)
      = a_purpose a
    ∧ chunk_duration (make_chunk (homework_lookup solar_db) solar_row)
      = a_duration a
    ∧ chunk_facilitator_script (make_chunk (homework_lookup solar_db) solar_row)
      = a_facilitator_script a
    ∧ chunk_transition_script (make_chunk (homework_lookup solar_db) solar_row)
      = a_transition_script a.
Proof.
  apply (chunk_sources solar_db).
  unfold export_chunks. rewrite solar_row_fetched. apply list_elem_of_here.
Defined.

(** The identifier of a chunk tells its activity. *)
Lemma chunk_id_inj (x y : Z) :
  "curr-" +:+ Py.str_int x = "curr-" +:+ Py.str_int y → x = y.
Proof.
  intros Heq%(inj (String.app _)). unfold Py.str_int in Heq.
  by apply (inj pretty) in Heq.
Qed.

Lemma chunk_ids_per_activity db acts c :
  primary_keys db →
  c ∈ acts ≫= (λ a, export_chunks (with_activities db [a])) →
  ∃ a, a ∈ acts ∧ chunk_id c = "curr-" +:+ Py.str_int (a_id a).
Proof.
  intros Hpk (a & Hc & Ha)%list_elem_of_bind. exists a. split; [done|].
  destruct (decide (qualifies db a)) as [Hq|Hq].
  - destruct (export_chunks_qualifying db a Hpk Hq) as (c' & Hc' & Hid & _).
    rewrite Hc' in Hc. by apply list_elem_of_singleton in Hc as ->.
  - rewrite (export_chunks_not_qualifying db a Hq) in Hc.
    by apply elem_of_nil in Hc.
Qed.

(** X6: with identifiers as primary keys, also of the activities, no two
    chunks have the same identifier. *)
Theorem chunk_ids_distinct db :
  primary_keys db → NoDup (a_id <$> activities db) →
  NoDup (chunk_id <$> export_chunks db).
Proof.
  intros Hpk. rewrite export_chunks_per_activity.
  induction (activities db) as [|a acts IH]; [intros _; constructor|].
  rewrite fmap_cons, NoDup_cons, bind_cons, fmap_app. intros [Ha Hacts].
  apply NoDup_app. split; [|split; [|by apply IH]].
  - destruct (decide (qualifies db a)) as [Hq|Hq].
    + destruct (export_chunks_qualifying db a Hpk Hq) as (c & -> & _).
      apply NoDup_singleton.
    + rewrite (export_chunks_not_qualifying db a Hq). constructor.
  - intros id (c & -> & Hc)%list_elem_of_fmap (c' & Hid & Hc')%list_elem_of_fmap.
    destruct (chunk_ids_per_activity db [a] c Hpk) as (a1 & Ha1 & Hid1).
    { by rewrite bind_singleton. }
    apply list_elem_of_singleton in Ha1 as ->.
    destruct (chunk_ids_per_activity db acts c' Hpk Hc') as (a2 & Ha2 & Hid2).
    apply Ha. rewrite Hid1, Hid2 in Hid. apply chunk_id_inj in Hid.
    rewrite Hid. by apply list_elem_of_fmap_2.
Qed.

(** The witness of [chunk_ids_distinct]: three activities, three chunks. *)
Lemma chunk_ids_distinct_witness :
  NoDup (chunk_id <$> export_chunks two_days_db).
Proof.
  apply (chunk_ids_distinct two_days_db).
  - split; apply (bool_decide_unpack _); vm_compute; exact I.
  - apply (bool_decide_unpack _). vm_compute. exact I.
Defined.
(** ** Nothing lost, nothing leaked *)

(** X5: every activity whose day exists and has a module is exported, be the
    identifiers primary keys or not. *)
Theorem qualifying_activity_exported db a d :
  a ∈ activities db → d ∈ days db →
  a_day_id a = Some (d_id d) → is_Some (d_module d) →
  ∃ c,
    c ∈ export_chunks db
    ∧ chunk_id c = "curr-" +:+ Py.str_int (a_id a)
    ∧ chunk_module c = d_module d
    ∧ chunk_day c = Some (d_day_number d)
    ∧ chunk_day_theme c = d_theme d
    ∧ chunk_session_number c = a_sequence_order a
    ∧ chunk_activity_name c = a_name a.
Proof.
  intros Ha Hd Hday Hm.
  assert ((a, Some d)
          ∈ Sql.left_join (λ a d, Sql.eq_null (a_day_id a) (d_id d))
              (activities db) (days db)) as Hj.
  { apply elem_of_left_join. split; [done|]. split; [done|].
    by apply eq_null_true. }
  destruct (left_join_covers
              (λ (j : activity * option day) lb,
                 Sql.eq_null (a_block_id j.1) (lb_id lb))
              _ (learning_blocks db) (a, Some d) Hj) as [lb Hlb].
  exists (make_chunk (homework_lookup db) (activities_select (a, Some d, lb))).
  split; [|done].
  unfold export_chunks, activities_query.
  do 2 apply list_elem_of_fmap_2.
  apply elem_of_order_by, list_elem_of_filter. split; [|done].
  unfold activities_where. by apply bool_decide_spec.
Qed.

(** The witness of [qualifying_activity_exported]: the worked example. *)
Lemma qualifying_activity_exported_witness :
  ∃ c,
    c ∈ export_chunks solar_db
    ∧ chunk_id c = "curr-" +:+ Py.str_int 42
    ∧ chunk_module c = Some "Solar"
    ∧ chunk_day c = Some 3
    ∧ chunk_day_theme c = Some "Photovoltaics"
    ∧ chunk_session_number c = 4
    ∧ chunk_activity_name c = "Panel Wiring Lab".
Proof.
  apply (qualifying_activity_exported solar_db
           (Activity 42 (Some 7) None "Panel Wiring Lab" 4
              (Some "Hands-on wiring practice") (Some "45 min")
              (Some "Walk through safety steps") None)
           (Day 7 (Some "Solar") 3 (Some "Photovoltaics"))).
  - apply list_elem_of_here.
  - apply list_elem_of_here.
  - done.
  - by eexists.
Defined.

Lemma homework_part_early h r : sequence_order r < 3 → homework_part h r = [].
Proof.
  intros Hseq. unfold homework_part. destruct (h !! _); [|done].
  rewrite bool_decide_false; [done|lia].
Qed.

(** X7: the chunks of the activities before the third session do not depend on
    the homework tables: whatever assignments and tasks the database holds,
    they are the same. *)
Theorem early_chunks_ignore_homework db assignments tasks :
  filter (λ c, chunk_session_number c < 3)
    (export_chunks (with_homework db assignments tasks))
  = filter (λ c, chunk_session_number c < 3) (export_chunks db).
Proof.
  unfold export_chunks.
  change (activities_query (with_homework db assignments tasks))
    with (activities_query db).
  induction (activities_query db) as [|r rows IH]; [done|].
  rewrite !fmap_cons, !filter_cons, IH. cbn [make_chunk chunk_session_number].
  destruct (decide (sequence_order r < 3)) as [Hseq|]; [|done].
  f_equal. unfold make_chunk, content_parts.
  by rewrite !homework_part_early.
Qed.
(** ** The printed breakdown *)

Lemma module_count_cons c chunks name :
  module_count (c :: chunks) name
  = (if decide (chunk_module c = Some name) then 1 else 0)
    + module_count chunks name.
Proof.
  unfold module_count. rewrite filter_cons.
  destruct (decide (chunk_module c = Some name)); cbn [length]; lia.
Qed.

(** X9: the three counts of the breakdown and the chunks of any other module
    add up to the number of chunks: a chunk of a module outside the list is
    exported and counted in the total, and in no line of the breakdown. *)
Theorem breakdown_total (chunks : list chunk) :
  module_count chunks "Architecture" + module_count chunks "Solar"
  + module_count chunks "Insulation"
  + Z.of_nat
      (length
         (filter (λ c, chunk_module c ∉ (Some <$> breakdown_modules)) chunks))
  = Z.of_nat (length chunks).
Proof.
  induction chunks as [|c chunks IH]; [done|].
  rewrite !module_count_cons, filter_cons. cbn [length].
  rewrite Nat2Z.inj_succ, <- IH.
  destruct (decide (chunk_module c ∉ Some <$> breakdown_modules)) as [Hout|Hin].
  - assert (chunk_module c ≠ Some "Architecture"
            ∧ chunk_module c ≠ Some "Solar"
            ∧ chunk_module c ≠ Some "Insulation") as (? & ? & ?).
    { repeat split; intros Heq; apply Hout; rewrite Heq;
        unfold breakdown_modules; rewrite !fmap_cons;
        rewrite !elem_of_cons; auto. }
    rewrite !decide_False by done. cbn [length]. lia.
  - apply dec_stable in Hin. unfold breakdown_modules in Hin.
    rewrite !fmap_cons, fmap_nil, !elem_of_cons, elem_of_nil in Hin.
    destruct Hin as [Heq|[Heq|[Heq|[]]]]; rewrite Heq;
      repeat (destruct (decide _) as [[=]|]; try done); lia.
Qed.
(** ** The titles of a homework line *)

Lemma row_group_key_select g : row_group_key (homework_select g) = g.1.
Proof. by destruct g as [[[[id m] n] t] rows]. Qed.

Lemma group_by_keys {A K} (R : relation K) `{!RelDecision R, !EqDecision K}
    (key : A → K) (rows : list A) :
  (Sql.group_by R key rows).*1 ≡ₚ remove_dups (key <$> rows).
Proof.
  unfold Sql.group_by. rewrite <- list_fmap_compose.
  erewrite list_fmap_ext; [|by intros].
  rewrite list_fmap_id. apply merge_sort_Permutation.
Qed.

(** No two fetched homework rows have the same GROUP BY columns. *)
Lemma homework_query_keys_NoDup db :
  NoDup (row_group_key <$> homework_query db).
Proof.
  unfold homework_query. rewrite <- list_fmap_compose.
  erewrite list_fmap_ext; [|intros ? g _; apply row_group_key_select].
  rewrite group_by_keys. apply NoDup_remove_dups.
Qed.

Lemma items_for_titles_NoDup k (rows : list homework_row) :
  NoDup (row_group_key <$> rows) →
  (∀ r1 r2, r1 ∈ rows → r2 ∈ rows → row_key r1 = k → row_key r2 = k →
            hw_day_id r1 = hw_day_id r2) →
  NoDup (title <$> items_for k rows).
Proof.
  induction rows as [|row rows IH]; [intros _ _; constructor|].
  rewrite fmap_cons, NoDup_cons, items_for_cons. intros [Hrow Hnd] Hid.
  assert (NoDup (title <$> items_for k rows)) as IH'.
  { apply IH; [done|]. intros r1 r2 H1 H2. apply Hid; by right. }
  destruct (decide (row_key row = k)) as [Hk|]; [|done].
  unfold row_items. destruct (Py.truthy (hw_title row)); [|done].
  cbn. apply NoDup_cons. split; [|done].
  intros (hw & Ht & Hhw)%list_elem_of_fmap.
  apply elem_of_items_for in Hhw as (row' & Hrow' & Hk' & _ & ->).
  cbn in Ht. apply Hrow. apply list_elem_of_fmap. exists row'. split; [|done].
  unfold row_group_key.
  rewrite (Hid row row') by (done || by left || by right).
  rewrite <- Hk' in Hk. injection Hk as -> ->. by rewrite Ht.
Qed.

(** X8: when a day number belongs to one day of a module, the items under a
    key have different titles: a homework line names a title once. *)
Theorem homework_titles_distinct db :
  day_numbers_unique db →
  map_Forall (λ _ items, NoDup (title <$> items)) (homework_lookup db).
Proof.
  intros Hunique k items. unfold homework_lookup.
  rewrite build_homework_by_day_lookup.
  destruct (decide _) as [_|]; [|done]. intros [= <-].
  apply items_for_titles_NoDup; [apply homework_query_keys_NoDup|].
  intros r1 r2 (d1 & Hd1 & _ & -> & Hm1 & Hn1)%homework_query_day
               (d2 & Hd2 & _ & -> & Hm2 & Hn2)%homework_query_day Hk1 Hk2.
  rewrite <- Hk2 in Hk1. unfold row_key in Hk1. injection Hk1 as Hm Hn.
  apply Hunique; try done; congruence.
Qed.

(** The witness of [homework_titles_distinct]: two days, three
    assignments, two of them of one title on different days. *)
Lemma homework_titles_distinct_witness :
  map_Forall (λ _ items, NoDup (title <$> items)) (homework_lookup two_days_db).
Proof.
  apply (homework_titles_distinct two_days_db).
  intros d1 d2 Hd1 Hd2. cbn in Hd1, Hd2.
  rewrite !elem_of_cons, elem_of_nil in Hd1, Hd2.
  destruct Hd1 as [->|[->|[]]], Hd2 as [->|[->|[]]]; cbn; congruence.
Defined.
(** ** The written file *)

Lemma lines_length s : length (lines s) = S (newlines s).
Proof.
  induction s as [|a s IH]; [done|]. cbn [lines newlines].
  destruct (Ascii.eqb a "010"); cbn [length]; [by rewrite IH|].
  destruct (lines s); cbn in *; lia.
Qed.

Lemma newlines_app s t : newlines (s +:+ t) = (newlines s + newlines t)%nat.
Proof.
  induction s as [|a s IH]; [done|].
  rewrite string_app_cons. cbn [newlines]. rewrite IH. lia.
Qed.

Lemma newlines_join sep p (parts : list string) :
  newlines (Py.join sep (p :: parts))
  = (newlines p + sum_list ((λ q, newlines sep + newlines q)%nat <$> parts))%nat.
Proof.
  revert p. induction parts as [|q parts IH]; intros p.
  - rewrite join_singleton. cbn. lia.
  - rewrite join_cons, !newlines_app, IH, fmap_cons. simpl. lia.
Qed.

Lemma hex_digit_code n : (48 ≤ N_of_ascii (Json.hex_digit n))%N.
Proof. unfold Json.hex_digit. repeat case_match; by vm_compute. Qed.

(** What [Json.escape] writes of a character: no control character. *)
Lemma escape_char_codes c :
  Forall (λ a, (32 ≤ N_of_ascii a)%N)
    (String.list_ascii_of_string (Json.escape_char c)).
Proof.
  unfold Json.escape_char, Json.esc, Json.backslash. cbn zeta.
  destruct (N.eqb_spec (N_of_ascii c) 34) as [E|_].
  { repeat constructor; [by vm_compute|lia]. }
  destruct (N.eqb_spec (N_of_ascii c) 92) as [E|_].
  { repeat constructor; [by vm_compute|lia]. }
  destruct (N.eqb_spec (N_of_ascii c) 8) as [_|_];
    [repeat constructor; by vm_compute|].
  destruct (N.eqb_spec (N_of_ascii c) 12) as [_|_];
    [repeat constructor; by vm_compute|].
  destruct (N.eqb_spec (N_of_ascii c) 10) as [_|_];
    [repeat constructor; by vm_compute|].
  destruct (N.eqb_spec (N_of_ascii c) 13) as [_|_];
    [repeat constructor; by vm_compute|].
  destruct (N.eqb_spec (N_of_ascii c) 9) as [_|_];
    [repeat constructor; by vm_compute|].
  destruct (N.ltb_spec (N_of_ascii c) 32) as [_|Hge].
  - rewrite !string_app_cons, string_app_nil_l. cbn [String.list_ascii_of_string].
    repeat constructor; try (by vm_compute);
      (etrans; [|apply hex_digit_code]); by vm_compute.
  - by repeat constructor.
Qed.

Lemma list_ascii_of_string_app s t :
  String.list_ascii_of_string (s +:+ t)
  = (String.list_ascii_of_string s ++ String.list_ascii_of_string t)%list.
Proof.
  induction s as [|a s IH]; [done|].
  rewrite string_app_cons. cbn. by rewrite IH.
Qed.

Lemma newlines_codes s :
  Forall (λ a, (32 ≤ N_of_ascii a)%N) (String.list_ascii_of_string s) →
  newlines s = 0%nat.
Proof.
  induction s as [|a s IH]; [done|]. cbn [String.list_ascii_of_string newlines].
  intros [Ha Hs]%Forall_cons. rewrite (IH Hs).
  destruct (Ascii.eqb_spec a "010") as [->|]; [|done].
  vm_compute in Ha. by destruct Ha.
Qed.

Lemma escape_codes s :
  Forall (λ a, (32 ≤ N_of_ascii a)%N)
    (String.list_ascii_of_string (Json.escape s)).
Proof.
  induction s as [|a s IH]; [constructor|]. cbn [Json.escape].
  rewrite list_ascii_of_string_app. apply Forall_app. split; [|done].
  apply escape_char_codes.
Qed.

(** X10: the sink writes no control character inside a string; a character
    that is neither a control character, nor the quote, nor the backslash
    is written as it is, so a text of such characters (all bytes of
    non-ASCII text among them) is written byte for byte. *)
Theorem escape_bytes s :
  Forall (λ a, (32 ≤ N_of_ascii a)%N)
    (String.list_ascii_of_string (Json.escape s))
  ∧ (Forall
       (λ a, (32 ≤ N_of_ascii a)%N
             ∧ N_of_ascii a ≠ 34%N ∧ N_of_ascii a ≠ 92%N)
       (String.list_ascii_of_string s) →
     Json.escape s = s).
Proof.
  split; [apply escape_codes|].
  induction s as [|a s IH]; [done|].
  cbn [String.list_ascii_of_string Json.escape].
  intros [(Ha & Hq & Hb) Hs]%Forall_cons. rewrite (IH Hs).
  unfold Json.escape_char.
  rewrite (proj2 (N.eqb_neq _ 34)), (proj2 (N.eqb_neq _ 92)) by done.
  rewrite !(proj2 (N.eqb_neq _ _)) by lia.
  rewrite (proj2 (N.ltb_ge _ _)) by done. done.
Qed.
Lemma newlines_pretty_N_go x s : newlines (pretty_N_go x s) = newlines s.
Proof.
  revert s. induction (N.lt_wf_0 x) as [x _ IH]; intros s.
  destruct (decide (0 < x)%N) as [Hx|Hx].
  - rewrite pretty_N_go_step by done. rewrite IH by (by apply N.div_lt).
    cbn [newlines]. unfold pretty_N_char. by repeat case_match.
  - assert (x = 0%N) as -> by lia. by rewrite pretty_N_go_0.
Qed.

Lemma newlines_str_int n : newlines (Py.str_int n) = 0%nat.
Proof.
  unfold Py.str_int, pretty, pretty_Z.
  destruct n as [|p|p]; [done|..]; unfold pretty, pretty_positive, pretty, pretty_N.
  - destruct (decide _); [done|]. apply newlines_pretty_N_go.
  - rewrite newlines_app. destruct (decide _); [done|].
    by rewrite newlines_pretty_N_go.
Qed.

Lemma newlines_json_str s : newlines (Json.str s) = 0%nat.
Proof.
  unfold Json.str. rewrite !newlines_app.
  rewrite (newlines_codes (Json.escape s)) by apply escape_codes. done.
Qed.

Lemma newlines_json_text v : newlines (Json.text v) = 0%nat.
Proof. destruct v; [apply newlines_json_str|done]. Qed.

Lemma newlines_json_int v : newlines (Json.int v) = 0%nat.
Proof. destruct v; [apply newlines_str_int|done]. Qed.

Lemma newlines_json_member key value :
  newlines value = 0%nat → newlines (Json.member key value) = 0%nat.
Proof.
  intros Hv. unfold Json.member.
  by rewrite !newlines_app, newlines_json_str, Hv.
Qed.

Lemma sum_list_cons x l : sum_list (x :: l) = (x + sum_list l)%nat.
Proof. done. Qed.

Lemma newlines_json_object c : newlines (Json.object c) = 13%nat.
Proof.
  unfold Json.object. rewrite !newlines_app, newlines_join.
  rewrite !fmap_cons, fmap_nil, !sum_list_cons.
  rewrite !newlines_app.
  rewrite !newlines_json_member
    by first [apply newlines_json_str|apply newlines_json_text
             |apply newlines_json_int|apply newlines_str_int].
  done.
Qed.

(** X11: the written file has one line for the empty array, and else a line
    for each bracket and fourteen lines for each chunk: no text of a chunk,
    whatever newlines it holds, breaks a line of the file. *)
Theorem dump_lines (chunks : list chunk) :
  length (lines (Json.dump chunks))
  = match chunks with
    | [] => 1%nat
    | _ => (2 + 14 * length chunks)%nat
    end.
Proof.
  rewrite lines_length. destruct chunks as [|c chunks]; [done|].
  unfold Json.dump. rewrite !newlines_app, fmap_cons, newlines_join.
  rewrite newlines_json_object.
  assert (sum_list
            ((λ q, newlines ("," +:+ Py.newline +:+ "  ") + newlines q)%nat
               <$> (Json.object <$> chunks))
          = (14 * length chunks)%nat) as ->.
  { induction chunks as [|c' chunks IH]; [done|].
    rewrite !fmap_cons, sum_list_cons, IH, newlines_json_object.
    cbn [length].
    change (newlines ("," +:+ Py.newline +:+ "  ")) with 1%nat. lia. }
  change (newlines "[") with 0%nat. change (newlines Py.newline) with 1%nat.
  change (newlines "  ") with 0%nat. change (newlines "]") with 0%nat.
  cbn [length]. lia.
Qed.

(** ** A run on two days *)

(** Two days, three activities given out of order: the chunks in order,
    their homework, and the size of the file. *)
Example two_days_export :
  chunk_id <$> export_chunks two_days_db = ["curr-41"; "curr-42"; "curr-43"]
  ∧ last (content_parts (homework_lookup two_days_db)
            <$> activities_query two_days_db)
    = Some [ "Module: Solar"; "Day 4: None"; "Session 3: Inverters";
             "Homework: Reading: Read ch. 5" ]
  ∧ length (lines (Json.dump (export_chunks two_days_db))) = 44%nat.
Proof. by vm_compute. Qed.

(** ** The entries of a homework line *)

Lemma NoDup_fmap_eq {A B} (f : A → B) (l : list A) x y :
  NoDup (f <$> l) → x ∈ l → y ∈ l → f x = f y → x = y.
Proof.
  induction l as [|z l IH]; [by intros _ ?%elem_of_nil|].
  rewrite fmap_cons, NoDup_cons, !elem_of_cons.
  intros [Hz Hnd] [->|Hx] [->|Hy] Heq; try done.
  - destruct Hz. rewrite Heq. by apply list_elem_of_fmap_2.
  - destruct Hz. rewrite <- Heq. by apply list_elem_of_fmap_2.
  - by apply IH.
Qed.








(** Its entries, as the lookup holds them. *)
Example two_titles_entries :
  homework_lookup two_titles_db !! (Some "Solar", Some 3)
  = Some [ {| title := Some "Reading"; tasks := "Read ch. 4 | Quiz prep" |};
           {| title := Some "Writing"; tasks := "Essay" |} ]
  ∧ titled_assignments two_titles_db
      (Day 7 (Some "Solar") 3 (Some "Photovoltaics"))
    = [HomeworkAssignment 1 7 (Some "Reading");
       HomeworkAssignment 2 7 (Some "Writing")].
Proof. split; by vm_compute. Qed.

(** ** The scan order of the activities *)

Global Instance order_le_antisymm : AntiSymm (=) order_le.
Proof. unfold order_le. apply _. Qed.

(** X12: when no two fetched activities have the same module, day number
    and sequence order, the chunks do not depend on the order in which the
    activities table is scanned: ORDER BY fixes their order. *)
Theorem export_scan_order db acts :
  acts ≡ₚ activities db →
  NoDup
    ((λ r, (module r, day_number r, sequence_order r))
       <$> activities_query db) →
  export_chunks (with_activities db acts) = export_chunks db.
Proof.
  intros Hperm Hkeys. unfold export_chunks.
  change (homework_lookup (with_activities db acts))
    with (homework_lookup db).
  f_equal. unfold activities_query in *. f_equal.
  rewrite <- list_fmap_compose in Hkeys.
  assert (filter (λ j, activities_where j)
            (activities_from (with_activities db acts))
          ≡ₚ filter (λ j, activities_where j) (activities_from db)) as Hrows.
  { unfold activities_from, Sql.left_join.
    cbn [with_activities activities days learning_blocks].
    by rewrite Hperm. }
  apply (StronglySorted_unique_strong
           (Sql.on_key order_le activities_order_key)).
  - intros j1 j2 Hj1 Hj2 H12 H21.
    apply (NoDup_fmap_eq activities_order_key
             (Sql.order_by order_le activities_order_key
                (filter (λ j, activities_where j) (activities_from db))));
      [exact Hkeys| |done|by apply (anti_symm order_le)].
    unfold Sql.order_by in *.
    by rewrite merge_sort_Permutation, <- Hrows, <- merge_sort_Permutation.
  - apply order_by_sorted; apply _.
  - apply order_by_sorted; apply _.
  - unfold Sql.order_by. by rewrite !merge_sort_Permutation.
Qed.

(** The witness of [export_scan_order]: the activities of [two_days_db] in
    the order of their identifiers. *)
Lemma export_scan_order_witness :
  export_chunks
    (with_activities two_days_db
       [ Activity 41 (Some 7) None "Safety briefing" 1 None None None None;
         Activity 42 (Some 7) (Some 5) "Panel Wiring Lab" 4 None None None None;
         Activity 43 (Some 8) None "Inverters" 3 None None None None ])
  = export_chunks two_days_db.
Proof.
  apply (export_scan_order two_days_db).
  - exact (reverse_Permutation (activities two_days_db)).
  - apply (bool_decide_unpack _). vm_compute. exact I.
Defined.
